(** * dht_influxdb: the meter-reading subsystem of [rtl.py]

    A shallow embedding of [rtl.py] (the Python 3 script that reads utility
    meters through the [rtlamr] decoder and forwards them to InfluxDB) and the
    properties of its specification checked against it.

    Layout:
    - [Py]    the fragment of Python's built-in behaviour the script relies on
              (exceptions, subscripting, [in], [str()], [float()]);
    - [Json]  [json.loads] on one line of decoder output;
    - [Calc]  [gamma], [dewpoint], [CtoF] on binary64 floats, and the same
              formulas over the real numbers;
    - [Rtl]   the class [rtl], [get_values] and the scheduler loop of
              [__main__];
    - [Reader], [Examples]  what the read loop is compared with, and the
              concrete decoders and meters of the examples;
    - the theorems, one section per component.

    Python computations are embedded in the type [outcome]: a run returns a
    value ([Ok]), leaves through an exception ([Raise]), leaves the fragment of
    Python that is modelled here ([Beyond]: nothing is claimed about it), or is
    still inside a [while] loop when the fuel is used up ([OutOfFuel]). *)

From Stdlib Require Import ZArith Lia List Bool Floats Reals Lra.
From Stdlib Require Import Strings.String Strings.Ascii.
From Stdlib Require QArith Qreals Qabs.
From stdpp Require Import gmap strings pretty.
Import ListNotations.

Set Warnings "-inexact-float,-register-all".

(* ===================================================================== *)
(** * Outcomes *)
(* ===================================================================== *)

Inductive exn : Set :=
| KeyError | ValueError | IndexError | TypeError
| OverflowError | UnboundLocalError | ZeroDivisionError.

Inductive outcome (A : Type) : Type :=
| Ok (a : A)
| Raise (e : exn)
| Beyond
| OutOfFuel.

Arguments Ok {A} a.
Arguments Raise {A} e.
Arguments Beyond {A}.
Arguments OutOfFuel {A}.

Definition obind {A B : Type} (m : outcome A) (k : A -> outcome B) : outcome B :=
  match m with
  | Ok a => k a
  | Raise e => Raise e
  | Beyond => Beyond
  | OutOfFuel => OutOfFuel
  end.

Declare Scope outcome_scope.
Delimit Scope outcome_scope with outcome.
Notation "'let!' x ':=' m 'in' k" := (obind m (fun x => k))
  (at level 10, x name, m at level 100, k at level 200) : outcome_scope.

(** [try: ... except e1, e2, ...: handler], for a handler that returns. *)
Definition exn_eqb (a b : exn) : bool :=
  match a, b with
  | KeyError, KeyError | ValueError, ValueError | IndexError, IndexError
  | TypeError, TypeError | OverflowError, OverflowError
  | UnboundLocalError, UnboundLocalError
  | ZeroDivisionError, ZeroDivisionError => true
  | _, _ => false
  end.

Definition try_except {A : Type} (body : outcome A) (caught : list exn)
    (handler : exn -> outcome A) : outcome A :=
  match body with
  | Raise e => if existsb (exn_eqb e) caught then handler e else Raise e
  | r => r
  end.

(** The only exception a computation can leave through is [ValueError]. *)
Definition only_ValueError {A : Type} (m : outcome A) : Prop :=
  forall e, m = Raise e -> e = ValueError.

Create HintDb json.

(* ===================================================================== *)
(** * Python objects and built-ins *)
(* ===================================================================== *)

Module Py.

(** A Python [dict] with [str] keys: insertion-ordered, one entry per key. *)
Definition dict (V : Type) : Type := list (string * V).

Fixpoint dict_get {V : Type} (d : dict V) (k : string) : option V :=
  match d with
  | [] => None
  | (k', v) :: d' => if String.eqb k' k then Some v else dict_get d' k
  end.

(** [d[k] = v]: replaces the value in place, or appends a new entry. *)
Fixpoint dict_set {V : Type} (k : string) (v : V) (d : dict V) : dict V :=
  match d with
  | [] => [(k, v)]
  | (k', v') :: d' =>
      if String.eqb k' k then (k, v) :: d' else (k', v') :: dict_set k v d'
  end.

Definition dict_mem {V : Type} (k : string) (d : dict V) : bool :=
  match dict_get d k with Some _ => true | None => false end.

(** The objects [json.loads] builds. *)
Inductive value : Type :=
| VNone
| VBool (b : bool)
| VInt (z : Z)
| VFloat (f : float)
| VStr (s : string)
| VList (l : list value)
| VDict (d : list (string * value)).

(** ** Characters *)

Definition code (c : ascii) : N := N_of_ascii c.

Definition is_digit (c : ascii) : bool := ((48 <=? code c) && (code c <=? 57))%N.

Definition digit_val (c : ascii) : Z := Z.of_N (code c) - 48.

Definition is_ascii7 (c : ascii) : bool := (code c <? 128)%N.

(** A digit string read as a decimal numeral. *)
Fixpoint digits_val_from (acc : Z) (s : string) : Z :=
  match s with
  | EmptyString => acc
  | String c r => digits_val_from (10 * acc + digit_val c) r
  end.

Definition digits_val (s : string) : Z := digits_val_from 0 s.

(** The longest prefix of digits, and what follows it. *)
Fixpoint span_digits (s : string) : string * string :=
  match s with
  | String c r =>
      if is_digit c then let '(ds, rest) := span_digits r in (String c ds, rest)
      else (EmptyString, s)
  | EmptyString => (EmptyString, EmptyString)
  end.

(** ** Conversion to binary64 *)

(** The binary64 float nearest to [(-1)^neg * p / q], ties to even, for
    [0 <= p] and [0 < q]: the rounding of Python's [float()] on a numeral and
    on an [int] (infinite when the value is out of range). *)
Definition round_ratio (neg : bool) (p q : Z) : float :=
  let f :=
    if (p =? 0)%Z then 0%float
    else
      let e := (Z.log2 p - Z.log2 q)%Z in
      let k := if (if 0 <=? e then q * 2 ^ e <=? p else q <=? p * 2 ^ (- e))%Z
               then e else (e - 1)%Z in
      let u := Z.max (k - 52) (-1074) in
      let '(n, d) := if (0 <=? u)%Z then (p, q * 2 ^ u)%Z else (p * 2 ^ (- u), q)%Z in
      let n0 := (n / d)%Z in
      let r := (n mod d)%Z in
      let m := if ((d <? 2 * r) || ((d =? 2 * r) && Z.odd n0))%Z then (n0 + 1)%Z else n0 in
      Z.ldexp (PrimFloat.of_uint63 (Uint63.of_Z m)) u
  in if neg then (- f)%float else f.

(** The float of the decimal numeral [m * 10^scale], [0 <= m]. *)
Definition decimal_to_float (neg : bool) (m scale : Z) : float :=
  if (m =? 0)%Z then round_ratio neg 0 1
  else
    (* 10^(top-1) <= m * 10^scale < 10^top *)
    let top := (scale + Z.of_nat (String.length (pretty m)))%Z in
    if (310 <? top)%Z then (if neg then neg_infinity else infinity)
    else if (top <? -330)%Z then round_ratio neg 0 1
    else if (0 <=? scale)%Z then round_ratio neg (m * 10 ^ scale) 1
    else round_ratio neg m (10 ^ (- scale)).

(** ** Subscripting, membership, [str()], [float()] *)

(** [v[k]] for a [str] key [k]. *)
Definition getitem (v : value) (k : string) : outcome value :=
  match v with
  | VDict d => match dict_get d k with Some x => Ok x | None => Raise KeyError end
  | _ => Raise TypeError
  end.

(** [l[0]] on a list. *)
Definition first_item {A : Type} (l : list A) : outcome A :=
  match l with
  | x :: _ => Ok x
  | [] => Raise IndexError
  end.

Definition is_substring (k s : string) : bool :=
  match String.index 0 k s with Some _ => true | None => false end.

(** [k in v] for a [str] [k]: key of a dict, element of a list, substring of
    a [str]; other objects are not containers. *)
Definition contains (k : string) (v : value) : outcome bool :=
  match v with
  | VDict d => Ok (dict_mem k d)
  | VList l => Ok (existsb (fun x => match x with VStr s => String.eqb s k | _ => false end) l)
  | VStr s => Ok (is_substring k s)
  | _ => Raise TypeError
  end.

(** [str(v)]. The text of a float and of a container is not modelled. *)
Definition str (v : value) : outcome string :=
  match v with
  | VStr s => Ok s
  | VInt z => Ok (pretty z)
  | VBool true => Ok "True"%string
  | VBool false => Ok "False"%string
  | VNone => Ok "None"%string
  | VFloat _ | VList _ | VDict _ => Beyond
  end.

(** White space that [float()] strips from both ends of an ASCII [str]: the
    tab, line feed, vertical tab, form feed and carriage return (9 to 13) and
    the space (32). The separators 28 to 31 are not stripped: [float] raises
    [ValueError] on a text that starts or ends with one of them. *)
Definition is_space (c : ascii) : bool :=
  (((9 <=? code c) && (code c <=? 13)) || (code c =? 32))%N.

Fixpoint lstrip (s : string) : string :=
  match s with
  | String c r => if is_space c then lstrip r else s
  | EmptyString => EmptyString
  end.

Fixpoint rev_string_onto (s acc : string) : string :=
  match s with
  | EmptyString => acc
  | String c r => rev_string_onto r (String c acc)
  end.

Definition rev_string (s : string) : string := rev_string_onto s EmptyString.

Definition strip (s : string) : string := rev_string (lstrip (rev_string (lstrip s))).

Definition lower (c : ascii) : ascii :=
  if ((65 <=? code c) && (code c <=? 90))%N then ascii_of_N (code c + 32) else c.

Fixpoint lower_string (s : string) : string :=
  match s with
  | EmptyString => EmptyString
  | String c r => String (lower c) (lower_string r)
  end.

(** [digitpart ::= digit (["_"] digit)*]: the digits of the longest such
    prefix (underscores dropped), and what follows it. *)
Fixpoint span_digitpart (s : string) : string * string :=
  match s with
  | String c r =>
      if is_digit c then
        let '(ds, rest) :=
          match r with
          | String u t =>
              if (Ascii.eqb u "_" && match t with String c' _ => is_digit c' | _ => false end)%bool
              then span_digitpart t
              else span_digitpart r
          | EmptyString => (EmptyString, EmptyString)
          end in
        (String c ds, rest)
      else (EmptyString, s)
  | EmptyString => (EmptyString, EmptyString)
  end.

Definition take_sign (s : string) : bool * string :=
  match s with
  | String "-" r => (true, r)
  | String "+" r => (false, r)
  | _ => (false, s)
  end.

(** [float(s)] for a [str] [s]:
    [[sign] (("inf" | "infinity" | "nan") | number [exponent])] between
    optional white space, with
    [number ::= [digitpart] "." digitpart | digitpart ["."]]. *)
Definition float_of_string (s : string) : outcome float :=
  if negb (forallb is_ascii7 (list_ascii_of_string s)) then Beyond
  else
    let '(neg, body) := take_sign (strip s) in
    let word := lower_string body in
    if (String.eqb word "inf" || String.eqb word "infinity")%string
    then Ok (if neg then neg_infinity else infinity)
    else if String.eqb word "nan" then Ok nan
    else
      let '(ip, r1) := span_digitpart body in
      let '(dot, fp, r2) :=
        match r1 with
        | String "." r => let '(fp, r') := span_digitpart r in (true, fp, r')
        | _ => (false, EmptyString, r1)
        end in
      if (String.length ip + String.length fp =? 0)%nat then Raise ValueError
      else
        let finish (ex : Z) (rest : string) : outcome float :=
          match rest with
          | EmptyString =>
              Ok (decimal_to_float neg (digits_val (ip ++ fp))
                    (ex - Z.of_nat (String.length fp)))
          | _ => Raise ValueError
          end in
        match r2 with
        | String e r =>
            if (Ascii.eqb e "e" || Ascii.eqb e "E")%char then
              let '(eneg, r') := take_sign r in
              let '(ep, r'') := span_digitpart r' in
              if (String.length ep =? 0)%nat then Raise ValueError
              else finish (if eneg then - digits_val ep else digits_val ep)%Z r''
            else Raise ValueError
        | EmptyString => finish 0%Z EmptyString
        end.

(** [float(v)]. *)
Definition to_float (v : value) : outcome float :=
  match v with
  | VFloat f => Ok f
  | VInt z =>
      let f := round_ratio (z <? 0)%Z (Z.abs z) 1 in
      if PrimFloat.is_infinity f then Raise OverflowError else Ok f
  | VBool b => Ok (if b then 1%float else 0%float)
  | VStr s => float_of_string s
  | VNone | VList _ | VDict _ => Raise TypeError
  end.

End Py.

(* ===================================================================== *)
(** * [json.loads] on one line of decoder output *)
(* ===================================================================== *)

Module Json.
Import Py.

(** The quotation mark, line feed and reverse solidus. *)
Definition dquote : ascii := "034"%char.
Definition newline : ascii := "010"%char.
Definition backslash : ascii := "092"%char.

(** Decoder lines are written below with ['] where the line has the
    quotation mark: [text] puts the quotation marks back. *)
Fixpoint text (s : string) : string :=
  match s with
  | EmptyString => EmptyString
  | String c r => String (if Ascii.eqb c "'" then dquote else c) (text r)
  end.

Inductive token : Type :=
| TLBrace | TRBrace | TLBracket | TRBracket | TColon | TComma
| TString (s : string)
| TValue (v : value).

Definition is_ws (c : ascii) : bool :=
  (Ascii.eqb c " " || Ascii.eqb c "009" || Ascii.eqb c "010" || Ascii.eqb c "013")%char.

Definition hex_val (c : ascii) : option N :=
  let n := code c in
  if ((48 <=? n) && (n <=? 57))%N then Some (n - 48)%N
  else if ((65 <=? n) && (n <=? 70))%N then Some (n - 55)%N
  else if ((97 <=? n) && (n <=? 102))%N then Some (n - 87)%N
  else None.

Definition hex4 (a b c d : ascii) : option N :=
  match hex_val a, hex_val b, hex_val c, hex_val d with
  | Some x, Some y, Some z, Some w => Some (((x * 16 + y) * 16 + z) * 16 + w)%N
  | _, _, _, _ => None
  end.

(** The character of a one-letter escape. *)
Definition unescape (e : ascii) : option ascii :=
  if Ascii.eqb e dquote then Some dquote
  else if Ascii.eqb e backslash then Some backslash
  else if Ascii.eqb e "/" then Some "/"%char
  else if Ascii.eqb e "b" then Some "008"%char
  else if Ascii.eqb e "f" then Some "012"%char
  else if Ascii.eqb e "n" then Some "010"%char
  else if Ascii.eqb e "r" then Some "013"%char
  else if Ascii.eqb e "t" then Some "009"%char
  else None.

Definition cons_char (c : ascii) (m : outcome (string * string)) : outcome (string * string) :=
  (let! p := m in Ok (String c (fst p), snd p))%outcome.

(** The body of a string literal, after its opening quotation mark: the
    string, and what follows the closing mark. An escape [\uXXXX] above
    U+007F leaves the model. *)
Fixpoint scanstring (s : string) : outcome (string * string) :=
  match s with
  | EmptyString => Raise ValueError
  | String c r =>
      if Ascii.eqb c dquote then Ok (EmptyString, r)
      else if Ascii.eqb c backslash then
        match r with
        | EmptyString => Raise ValueError
        | String e r1 =>
            match unescape e with
            | Some ch => cons_char ch (scanstring r1)
            | None =>
                if Ascii.eqb e "u" then
                  match r1 with
                  | String h1 (String h2 (String h3 (String h4 r2))) =>
                      match hex4 h1 h2 h3 h4 with
                      | Some n =>
                          if (n <? 128)%N then cons_char (ascii_of_N n) (scanstring r2)
                          else Beyond
                      | None => Raise ValueError
                      end
                  | _ => Raise ValueError
                  end
                else Raise ValueError
            end
        end
      else if (code c <=? 31)%N then Raise ValueError
      else cons_char c (scanstring r)
  end.

Fixpoint drop (n : nat) (s : string) : string :=
  match n, s with
  | S n', String _ r => drop n' r
  | _, _ => s
  end.

(** A number at the head of [s], as the decoder's number pattern matches it:
    an optional minus sign, then 0 or a digit 1-9 with more digits; then, if
    present, a point with one digit or more; then, if present, e or E, an
    optional sign and one digit or more. It is an [int] when there is neither
    fraction nor exponent, a [float] otherwise. [None] when no number starts
    there. *)
Definition scan_number (s : string) : option (value * string) :=
  let '(neg, s1) := match s with String "-" r => (true, r) | _ => (false, s) end in
  let int_part :=
    match s1 with
    | String c r =>
        if Ascii.eqb c "0" then Some ("0"%string, r)
        else if is_digit c then let '(ds, r') := span_digits r in Some (String c ds, r')
        else None
    | EmptyString => None
    end in
  match int_part with
  | None => None
  | Some (ip, r1) =>
      let '(frac, r2) :=
        match r1 with
        | String "." r =>
            let '(fs, r') := span_digits r in
            if (String.length fs =? 0)%nat then (None, r1) else (Some fs, r')
        | _ => (None, r1)
        end in
      let '(ex, r3) :=
        match r2 with
        | String e r =>
            if (Ascii.eqb e "e" || Ascii.eqb e "E")%char then
              let '(eneg, r') :=
                match r with
                | String "-" t => (true, t)
                | String "+" t => (false, t)
                | _ => (false, r)
                end in
              let '(es, r'') := span_digits r' in
              if (String.length es =? 0)%nat then (None, r2)
              else (Some (if eneg then - digits_val es else digits_val es)%Z, r'')
            else (None, r2)
        | EmptyString => (None, r2)
        end in
      match frac, ex with
      | None, None => Some (VInt (if neg then - digits_val ip else digits_val ip)%Z, r3)
      | _, _ =>
          let fs := match frac with Some fs => fs | None => EmptyString end in
          let e := match ex with Some e => e | None => 0%Z end in
          Some (VFloat (decimal_to_float neg (digits_val (ip ++ fs))
                          (e - Z.of_nat (String.length fs))), r3)
      end
  end.

Definition literals : list (string * value) :=
  [ ("null", VNone); ("true", VBool true); ("false", VBool false);
    ("NaN", VFloat nan); ("Infinity", VFloat infinity);
    ("-Infinity", VFloat neg_infinity) ]%string.

Fixpoint scan_literal (ls : list (string * value)) (s : string) : option (value * string) :=
  match ls with
  | [] => None
  | (w, v) :: ls' =>
      if String.prefix w s then Some (v, drop (String.length w) s)
      else scan_literal ls' s
  end.

(** The tokens of a line. Every step consumes a character, so a fuel of the
    length of the line is enough. *)
Fixpoint lex (fuel : nat) (s : string) : outcome (list token) :=
  match s with
  | EmptyString => Ok []
  | String c r =>
      match fuel with
      | O => Beyond
      | S fuel' =>
          let one (t : token) (rest : string) : outcome (list token) :=
            (let! ts := lex fuel' rest in Ok (t :: ts))%outcome in
          if is_ws c then lex fuel' r
          else if Ascii.eqb c "{" then one TLBrace r
          else if Ascii.eqb c "}" then one TRBrace r
          else if Ascii.eqb c "[" then one TLBracket r
          else if Ascii.eqb c "]" then one TRBracket r
          else if Ascii.eqb c ":" then one TColon r
          else if Ascii.eqb c "," then one TComma r
          else if Ascii.eqb c dquote then
            (let! p := scanstring r in one (TString (fst p)) (snd p))%outcome
          else
            match scan_number s with
            | Some (v, String c' r') =>
                (* the rest is a proper suffix of [s] *)
                if (String.length (String c' r') <? String.length s)%nat
                then one (TValue v) (String c' r') else Beyond
            | Some (v, EmptyString) => Ok [TValue v]
            | None =>
                match scan_literal literals s with
                | Some (v, rest) =>
                    if (String.length rest <? String.length s)%nat
                    then one (TValue v) rest else Beyond
                | None => Raise ValueError
                end
            end
      end
  end.

(** The value at the head of the tokens, and the tokens after it. *)
Fixpoint parse_value (fuel : nat) (ts : list token) {struct fuel}
    : outcome (value * list token) :=
  match fuel with
  | O => Beyond
  | S fuel' =>
      match ts with
      | TValue v :: r => Ok (v, r)
      | TString s :: r => Ok (VStr s, r)
      | TLBracket :: TRBracket :: r => Ok (VList [], r)
      | TLBracket :: r => parse_elements fuel' [] r
      | TLBrace :: TRBrace :: r => Ok (VDict [], r)
      | TLBrace :: r => parse_members fuel' [] r
      | _ => Raise ValueError
      end
  end
with parse_elements (fuel : nat) (acc : list value) (ts : list token) {struct fuel}
    : outcome (value * list token) :=
  match fuel with
  | O => Beyond
  | S fuel' =>
      match parse_value fuel' ts with
      | Ok (v, TComma :: r) => parse_elements fuel' (acc ++ [v]) r
      | Ok (v, TRBracket :: r) => Ok (VList (acc ++ [v]), r)
      | Ok _ => Raise ValueError
      | other => other
      end
  end
with parse_members (fuel : nat) (acc : dict value) (ts : list token) {struct fuel}
    : outcome (value * list token) :=
  match fuel with
  | O => Beyond
  | S fuel' =>
      match ts with
      | TString k :: TColon :: r =>
          match parse_value fuel' r with
          | Ok (v, TComma :: r') => parse_members fuel' (dict_set k v acc) r'
          | Ok (v, TRBrace :: r') => Ok (VDict (dict_set k v acc), r')
          | Ok _ => Raise ValueError
          | other => other
          end
      | _ => Raise ValueError
      end
  end.

Definition is_open (c : ascii) : bool := (Ascii.eqb c "[" || Ascii.eqb c "{")%char.

(** The lines on which the behaviour of [json.loads] is modelled: bytes
    [0x01..0x7F] (so the line is its own UTF-8 decoding), at most 4000 of
    them (below the limit on the digits of an [int]) and at most 100 opening
    brackets (nesting far below the recursion limit). *)
Definition modelled (line : string) : bool :=
  let cs := list_ascii_of_string line in
  forallb (fun c => (0 <? code c)%N && is_ascii7 c) cs
  && (List.length cs <=? 4000)%nat
  && (List.length (filter is_open cs) <=? 100)%nat.

(** [json.loads(line)] on a modelled line: the decoded object, or
    [ValueError] ([json.JSONDecodeError] is a [ValueError]). On the other
    lines nothing is said; among them are the lines on which [json.loads]
    leaves by another error ([RecursionError], on a nesting deeper than the
    recursion limit of the interpreter). *)
Definition loads (line : string) : outcome value :=
  if negb (modelled line) then Beyond
  else
    (let! ts := lex (String.length line) line in
     match parse_value (2 * List.length ts + 2) ts with
     | Ok (v, []) => Ok v
     | Ok (_, _ :: _) => Raise ValueError
     | Raise e => Raise e
     | Beyond | OutOfFuel => Beyond
     end)%outcome.

End Json.

(* ===================================================================== *)
(** * The derived metrics: [gamma], [dewpoint], [CtoF] *)
(* ===================================================================== *)

Module Calc.

(** dewpoint constants *)
Definition b : float := 17.27%float.
Definition c : float := 237.7%float.

(** What the math library of the platform returns for the natural
    logarithm of a positive finite float other than 1. IEEE 754 does not fix
    the last bits of that result, so it is a datum of the outside world:
    [Some y] where the world tells it, [None] where it is not known. *)
Definition log_library : Type := float -> option float.

(** [np.log] on a binary64 float. Its result is fixed exactly at some
    arguments (it is [+0] at 1, infinite at 0, [nan] below 0); at any other
    argument it is what the library of the platform returns. *)
Definition np_log (libm : log_library) (x : float) : outcome float :=
  if PrimFloat.is_nan x then Ok nan
  else if PrimFloat.eqb x 1 then Ok 0%float
  else if PrimFloat.eqb x 0 then Ok neg_infinity
  else if PrimFloat.ltb x 0 then Ok nan
  else if PrimFloat.eqb x infinity then Ok infinity
  else match libm x with
       | Some y => Ok y
       | None => Beyond
       end.

(** Python's [/] on two [float]s. *)
Definition truediv (x y : float) : outcome float :=
  if PrimFloat.eqb y 0 then Raise ZeroDivisionError else Ok (x / y)%float.

(** gamma function takes temperature in celcius and percent relative
    humidity: [np.log(RH/100.0) + (b * Tc)/(c + Tc)]. *)
Definition gamma (libm : log_library) (Tc RH : float) : outcome float :=
  (let! l := np_log libm (RH / 100)%float in
   let! q := truediv (b * Tc)%float (c + Tc)%float in
   Ok (l + q)%float)%outcome.

(** calculate dewpoint in Celcius given temperature in celcius and relative
    humidity: [(c * gamma(Tc, RH)) / (b - gamma(Tc, RH))]. The operands are
    NumPy floats, whose division does not raise. *)
Definition dewpoint (libm : log_library) (Tc RH : float) : outcome float :=
  (let! g1 := gamma libm Tc RH in
   let! g2 := gamma libm Tc RH in
   Ok ((c * g1) / (b - g2))%float)%outcome.

(** return Temperature in Farenheit *)
Definition CtoF (Tc : float) : float := (Tc * (9 / 5) + 32)%float.




Definition CtoFR (Tc : R) : R := (Tc * (9 / 5) + 32)%R.

(** ** The floats of the code as real numbers *)








End Calc.

(* ===================================================================== *)
(** * The class [rtl] and the scheduler loop *)
(* ===================================================================== *)

Module Rtl.
Import Py.

(** ** The child process *)

(** What [readline()] returns: [bytes] on a pipe opened in binary mode,
    [str] on one opened in text mode. *)
Inductive pystring : Type :=
| Bytes (s : string)
| Str (s : string).

Definition content (o : pystring) : string :=
  match o with Bytes s | Str s => s end.

(** [o == s] for a [str] literal [s]: a [bytes] object equals no [str]. *)
Definition eq_str (o : pystring) (s : string) : bool :=
  match o with
  | Str t => String.eqb t s
  | Bytes _ => false
  end.

(** [if o:] holds for a non-empty [bytes] or [str]. *)
Definition truthy (o : pystring) : bool :=
  negb (String.eqb (content o) EmptyString).

Inductive pipe_mode : Set := Binary | Text.

(** A running child: the lines its standard output still holds (then comes
    the end of the stream, when the child has exited). *)
Record process : Type := {
  cmdline : list string;
  mode : pipe_mode;
  stdout : list string
}.

(** What the outside world answers to a command line once the child is
    running: the lines the child writes to its standard output before it
    exits. *)
Definition spawner : Type := list string -> list string.

(** [subprocess.Popen(command_line, stdout=PIPE, stderr=PIPE)] on a program
    that can be started: neither [text] nor an encoding is asked for, so the
    pipe is binary. A program that cannot be started (no [rtlamr] or
    [rtl_433] on the path) makes [Popen] raise [OSError] before any line is
    read; a [spawner] describes running children only, so that start is not
    among the runs described here and nothing below speaks of it. *)
Definition Popen (popen : spawner) (command_line : list string) : process :=
  {| cmdline := command_line; mode := Binary; stdout := popen command_line |}.

(** [p.stdout.readline()]: the next line, or the empty string at the end. *)
Definition readline (p : process) : pystring * process :=
  let wrap := match mode p with Binary => Bytes | Text => Str end in
  match stdout p with
  | [] => (wrap EmptyString, p)
  | l :: r => (wrap l, {| cmdline := cmdline p; mode := mode p; stdout := r |})
  end.

(** [p.poll() is not None], asked after an empty read: the child has exited
    once its output is exhausted. *)
Definition exited (p : process) : bool :=
  match stdout p with [] => true | _ :: _ => false end.

(** ** The world: tag dictionaries and what the calls do to the outside *)

Inductive tagval : Type :=
| TagNone
| TagStr (s : string)
| TagInt (z : Z).

Definition tag_of_id (id : option string) : tagval :=
  match id with Some s => TagStr s | None => TagNone end.

(** References to dicts. *)
Abbreviation loc := nat (only parsing).

(** A point as it is built: its [tags] entry is a reference to a dict. *)
Record point : Type := {
  measurement : string;
  tags : loc;
  time : string;
  fields : dict float
}.

(** A point as the sink receives it. *)
Record sent_point : Type := {
  sent_measurement : string;
  sent_tags : option (dict tagval);
  sent_time : string;
  sent_fields : dict float
}.

Inductive event : Type :=
| Spawn (command_line : list string)
| Kill (command_line : list string)
| WritePoints (series : list sent_point).

(** The world: the dicts that the references point to, what the program
    has done to the outside so far, and the math library of the platform,
    which no call changes. *)
Record world : Type := {
  heap : gmap loc (dict tagval);
  trace : list event;
  libm : Calc.log_library
}.

Definition log (es : list event) (w : world) : world :=
  {| heap := heap w; trace := trace w ++ es; libm := libm w |}.

Definition store (l : loc) (d : dict tagval) (w : world) : world :=
  {| heap := <[l := d]> (heap w); trace := trace w; libm := libm w |}.

(** [tags[k] = v] on the dict that [l] refers to. *)
Definition setitem (l : loc) (k : string) (v : tagval) (w : world) : outcome world :=
  match heap w !! l with
  | Some d => Ok (store l (dict_set k v d) w)
  | None => Beyond
  end.

(** [tags.copy()]: a new dict with the same entries. *)
Definition copy (l : loc) (w : world) : outcome (loc * world) :=
  match heap w !! l with
  | Some d => let l' := fresh (dom (heap w)) in Ok (l', store l' d w)
  | None => Beyond
  end.

Definition send (w : world) (p : point) : sent_point :=
  {| sent_measurement := measurement p;
     sent_tags := heap w !! tags p;
     sent_time := time p;
     sent_fields := fields p |}.

(** [if influxclient: influxclient.write_points(series)] *)
Definition write_points (influxclient : bool) (series : list point) (w : world) : world :=
  if influxclient then log [WritePoints (map (send w) series)] w else w.

(** ** The object *)

(** The identities are the values of the command-line options: a [str], or
    [None] when the option is absent. *)
Record rtl : Type := {
  rtl_server : string;
  rtl_port : string;   (* the port as [format] prints it *)
  electric_meter_id : option string;
  gas_meter_id : option string;
  water_meter_id : option string
}.

(** [if meter_id:] on an identity: [None] and the empty string do not count. *)
Definition configured (id : option string) : bool :=
  match id with
  | Some s => negb (String.eqb s EmptyString)
  | None => false
  end.

(** [str(meter_id)] *)
Definition str_id (id : option string) : string :=
  match id with Some s => s | None => "None"%string end.

Definition command_line (self : rtl) (msgtype : string) (filterids : list string)
    : list string :=
  let ids := String.concat "," filterids in
  let server := (rtl_server self ++ ":" ++ rtl_port self)%string in
  [ "rtlamr"; "-format"; "json"; "-msgtype"; msgtype;
    "-server"; server; "-filterid"; ids; "-single"; "true" ]%string.

(** The [while found < len(filterids)] loop of [get_rtl_values], with its
    [else] clause: the decoded lines, and whether the child was killed. *)
Fixpoint read_loop (fuel : nat) (n found : nat) (result : list value) (p : process)
    : outcome (list value * bool) :=
  if (found <? n)%nat then
    match fuel with
    | O => OutOfFuel
    | S fuel' =>
        let '(output, p') := readline p in
        if eq_str output EmptyString && exited p' then Ok (result, false)
        else if truthy output then
          match Json.loads (content output) with
          | Ok d => read_loop fuel' n (S found) (result ++ [d]) p'
          | Raise ValueError => read_loop fuel' n found result p'
          | Raise e => Raise e
          | Beyond | OutOfFuel => Beyond
          end
        else read_loop fuel' n found result p'
    end
  else Ok (result, true).

(** Read the sensors available and their values. *)
Definition get_rtl_values (self : rtl) (popen : spawner) (fuel : nat)
    (msgtype : string) (filterids : list string) (w : world)
    : outcome (list value * world) :=
  let cmd := command_line self msgtype filterids in
  let p := Popen popen cmd in
  (let! r := read_loop fuel (List.length filterids) 0 [] p in
   Ok (fst r, log (Spawn cmd :: if snd r then [Kill cmd] else []) w))%outcome.

(** The test of the [if] and of the [elif] in the loop over the items:
    [meter_id and key in item["Message"] and
     str(item["Message"][key]) == str(meter_id)]. *)
Definition item_matches (meter_id : option string) (key : string) (item : value)
    : outcome bool :=
  if configured meter_id then
    (let! m := getitem item "Message" in
     let! has := contains key m in
     if (has : bool) then
       let! m' := getitem item "Message" in
       let! x := getitem m' key in
       let! sx := str x in
       Ok (String.eqb sx (str_id meter_id))
     else Ok false)%outcome
  else Ok false.

(** The [try] block under a matching item:
    [raw = item["Message"]["Consumption"]; d[name] = float(raw)/100.0],
    with [except KeyError] and [except ValueError] that print and go on. *)
Definition record_reading (name : string) (item : value) (d : dict float)
    : outcome (dict float) :=
  try_except
    (let! m := getitem item "Message" in
     let! raw := getitem m "Consumption" in
     let! f := to_float raw in
     Ok (dict_set name (f / 100)%float d))%outcome
    [KeyError; ValueError]
    (fun _ => Ok d).

Definition reading_step (gas_meter_id electric_meter_id : option string)
    (d : dict float) (item : value) : outcome (dict float) :=
  (let! is_gas := item_matches gas_meter_id "EndpointID" item in
   if (is_gas : bool) then record_reading "gas" item d
   else
     let! is_electric := item_matches electric_meter_id "ID" item in
     if (is_electric : bool) then record_reading "electric" item d
     else Ok d)%outcome.

Fixpoint for_items (gas_meter_id electric_meter_id : option string)
    (l : list value) (d : dict float) : outcome (dict float) :=
  match l with
  | [] => Ok d
  | item :: l' =>
      (let! d' := reading_step gas_meter_id electric_meter_id d item in
       for_items gas_meter_id electric_meter_id l' d')%outcome
  end.

(** internal call: return dictionary with electric/gas readings. The local
    names [le] and [lg] are bound only under their [if]. *)
Definition __get_gas_and_electric_reading (self : rtl) (popen : spawner) (fuel : nat)
    (gas_meter_id electric_meter_id : option string) (w : world)
    : outcome (dict float * world) :=
  let gas_ids := if configured gas_meter_id then [str_id gas_meter_id] else [] in
  let elec_ids := if configured electric_meter_id then [str_id electric_meter_id] else [] in
  if (List.length gas_ids + List.length elec_ids =? 0)%nat then Ok ([], w)
  else
    (let! r1 :=
       if (0 <? List.length elec_ids)%nat then
         let! r := get_rtl_values self popen fuel "scm" elec_ids w in
         Ok (Some (fst r), snd r)
       else Ok (None, w) in
     let! r2 :=
       if (0 <? List.length gas_ids)%nat then
         let! r := get_rtl_values self popen fuel "scm+" gas_ids (snd r1) in
         Ok (Some (fst r), snd r)
       else Ok (None, snd r1) in
     match fst r1, fst r2 with
     | Some le, Some lg =>
         let! d := for_items gas_meter_id electric_meter_id (le ++ lg) [] in
         Ok (d, snd r2)
     | _, _ => Raise UnboundLocalError
     end)%outcome.

(** return a dictionary with both gas and electric readings *)
Definition get_gas_and_electric_reading (self : rtl) (popen : spawner) (fuel : nat)
    (w : world) : outcome (dict float * world) :=
  __get_gas_and_electric_reading self popen fuel
    (gas_meter_id self) (electric_meter_id self) w.

(** return current reading (in kwh) from meterid *)
Definition get_electric_reading (self : rtl) (popen : spawner) (fuel : nat) (w : world)
    : outcome (option float * world) :=
  match electric_meter_id self with
  | None => Ok (None, w)
  | Some _ =>
      (let! r := __get_gas_and_electric_reading self popen fuel
                   None (electric_meter_id self) w in
       match dict_get (fst r) "electric" with
       | Some reading => Ok (Some reading, snd r)
       | None => Raise KeyError
       end)%outcome
  end.

(** return current reading (in ccf) from meterid *)
Definition get_gas_reading (self : rtl) (popen : spawner) (fuel : nat) (w : world)
    : outcome (option float * world) :=
  match gas_meter_id self with
  | None => Ok (None, w)
  | Some _ =>
      (let! r := __get_gas_and_electric_reading self popen fuel
                   (gas_meter_id self) None w in
       match dict_get (fst r) "gas" with
       | Some reading => Ok (Some reading, snd r)
       | None => Raise KeyError
       end)%outcome
  end.

(** return current reading (in hcf) from meterid; [None] is Python's. *)
Definition get_water_reading (self : rtl) (popen : spawner) (fuel : nat) (w : world)
    : outcome (option float * world) :=
  match water_meter_id self with
  | None => Ok (None, w)
  | Some _ =>
      (let! r := get_rtl_values self popen fuel "r900bcd" [str_id (water_meter_id self)] w in
       let! reading :=
         try_except
           (let! item := first_item (fst r) in
            let! m := getitem item "Message" in
            let! raw := getitem m "Consumption" in
            let! f := to_float raw in
            Ok (Some (f / 100)%float))
           [IndexError; KeyError; ValueError]
           (fun _ => Ok None) in
       Ok (reading, snd r))%outcome
  end.

(** [tags["meterid"] = id; tags["units"] = units; tags["version"] = 1] *)
Definition set_meter_tags (l : loc) (id : option string) (units : string) (w : world)
    : outcome world :=
  (let! w1 := setitem l "meterid" (tag_of_id id) w in
   let! w2 := setitem l "units" (TagStr units) w1 in
   setitem l "version" (TagInt 1) w2)%outcome.

(** read water and send to influx *)
Definition do_water_meter_reading (self : rtl) (popen : spawner) (fuel : nat)
    (influxclient : bool) (timestamp : string) (tags : loc) (w : world)
    : outcome world :=
  (let! r := get_water_reading self popen fuel w in
   match fst r with
   | None => Ok (snd r)
   | Some reading =>
       let fields := dict_set "reading" reading [] in
       let! w1 := set_meter_tags tags (water_meter_id self) "hcf" (snd r) in
       let d := {| measurement := "water"; tags := tags;
                   time := timestamp; fields := fields |} in
       Ok (write_points influxclient [d] w1)
   end)%outcome.

(** One branch of [do_gas_electric_meter_reading]: [if name in readings:]
    copy the tags, complete the copy, append the point. *)
Definition add_point (name : string) (id : option string) (units : string)
    (readings : dict float) (timestamp : string) (tags : loc)
    (st : list point * world) : outcome (list point * world) :=
  match dict_get readings name with
  | Some reading =>
      let fields := dict_set "reading" reading [] in
      (let! c := copy tags (snd st) in
       let! w' := set_meter_tags (fst c) id units (snd c) in
       let d := {| measurement := name; tags := fst c;
                   time := timestamp; fields := fields |} in
       Ok (fst st ++ [d], w'))%outcome
  | None => Ok st
  end.

(** read gas & electric and send to influx *)
Definition do_gas_electric_meter_reading (self : rtl) (popen : spawner) (fuel : nat)
    (influxclient : bool) (timestamp : string) (tags : loc) (w : world)
    : outcome world :=
  (let! r := get_gas_and_electric_reading self popen fuel w in
   let readings := fst r in
   let! s1 := add_point "gas" (gas_meter_id self) "ccf" readings timestamp tags ([], snd r) in
   let! s2 := add_point "electric" (electric_meter_id self) "kwh" readings timestamp tags s1 in
   Ok (write_points influxclient (fst s2) (snd s2)))%outcome.

(** ** The weather path: [get_values] *)

Record weather_state : Type := {
  humidity : float;        (* starts as the integer 0 *)
  temperatureC : float;    (* starts as the integer 0 *)
  foundH : bool;
  foundT : bool
}.

Record readings : Type := {
  tempC : float; tempF : float; rh : float; dewC : float; dewF : float
}.

(** [if key in d: found = 1; x = float(d[key])] inside the [try]: the key is
    absent ([None]), or present with [float] raising [ValueError]
    ([Some None]: the [except] clause continues the loop, the flag being
    set already), or present with a float ([Some (Some x)]). *)
Definition read_field (key : string) (d : value) : outcome (option (option float)) :=
  (let! has := contains key d in
   if (has : bool) then
     match (let! x := getitem d key in to_float x) with
     | Ok x => Ok (Some (Some x))
     | Raise ValueError => Ok (Some None)
     | Raise e => Raise e
     | Beyond => Beyond
     | OutOfFuel => OutOfFuel
     end
   else Ok None)%outcome.

(** The body of the [try] after [d = json.loads(output)]. *)
Definition weather_step (st : weather_state) (d : value) : outcome weather_state :=
  (let! h := read_field "humidity" d in
   match h with
   | Some None =>
       Ok {| humidity := humidity st; temperatureC := temperatureC st;
             foundH := true; foundT := foundT st |}
   | _ =>
       let st1 :=
         match h with
         | Some (Some x) =>
             {| humidity := x; temperatureC := temperatureC st;
                foundH := true; foundT := foundT st |}
         | _ => st
         end in
       let! t := read_field "temperature_C" d in
       match t with
       | Some None =>
           Ok {| humidity := humidity st1; temperatureC := temperatureC st1;
                 foundH := foundH st1; foundT := true |}
       | Some (Some x) =>
           Ok {| humidity := humidity st1; temperatureC := x;
                 foundH := foundH st1; foundT := true |}
       | None => Ok st1
       end
   end)%outcome.

(** The [while foundH == 0 or foundT == 0] loop of [get_values], with its
    [else] clause: the state, and whether the child was killed. *)
Fixpoint weather_loop (fuel : nat) (st : weather_state) (p : process)
    : outcome (weather_state * bool) :=
  if negb (foundH st) || negb (foundT st) then
    match fuel with
    | O => OutOfFuel
    | S fuel' =>
        let '(output, p') := readline p in
        if eq_str output EmptyString && exited p' then Ok (st, false)
        else if truthy output then
          match Json.loads (content output) with
          | Ok d =>
              (let! st' := weather_step st d in weather_loop fuel' st' p')%outcome
          | Raise ValueError => weather_loop fuel' st p'
          | Raise e => Raise e
          | Beyond | OutOfFuel => Beyond
          end
        else weather_loop fuel' st p'
    end
  else Ok (st, true).

Definition weather_command_line : list string :=
  [ "rtl_433"; "-d"; "rtl_tcp:192.168.5.20"; "-T"; "300"; "-f"; "434078700";
    "-R"; "34"; "-F"; "json" ]%string.

(** Read the sensors available and their values. Returns a dictionary with
    the readings or None on errors. *)
Definition get_values (popen : spawner) (fuel : nat) (w : world)
    : outcome (option readings * world) :=
  let p := Popen popen weather_command_line in
  let st0 := {| humidity := 0%float; temperatureC := 0%float;
                foundH := false; foundT := false |} in
  (let! r := weather_loop fuel st0 p in
   if (snd r : bool) then
     let st := fst r in
     let! dewpointC := Calc.dewpoint (libm w) (temperatureC st) (humidity st) in
     Ok (Some {| tempC := temperatureC st; tempF := Calc.CtoF (temperatureC st);
                 rh := humidity st;
                 dewC := dewpointC; dewF := Calc.CtoF dewpointC |},
         log [Spawn weather_command_line; Kill weather_command_line] w)
   else Ok (None, log [Spawn weather_command_line] w))%outcome.

(** The [fields] of one measurement, filled by the [if]/[elif] chain of
    [do_weather_reading]. *)
Definition weather_fields (measurement : string) (r : readings) : dict float :=
  if String.eqb measurement "temperature" then
    dict_set "tempC" (tempC r) (dict_set "tempF" (tempF r) [])
  else if String.eqb measurement "humidity" then
    dict_set "rh" (rh r) []
  else if String.eqb measurement "dewpoint" then
    dict_set "dewC" (dewC r) (dict_set "dewF" (dewF r) [])
  else [].

(** [do_weather_reading]: one point per measurement, each with the [tags]
    object of the caller itself, written in one batch. *)
Definition do_weather_reading (popen : spawner) (fuel : nat)
    (influxclient : bool) (timestamp : string) (tags : loc) (w : world)
    : outcome world :=
  (let! r := get_values popen fuel w in
   match fst r with
   | None => Ok (snd r)
   | Some values =>
       let series :=
         map (fun measurement =>
                {| measurement := measurement; tags := tags;
                   time := timestamp; fields := weather_fields measurement values |})
             ["temperature"; "humidity"; "dewpoint"]%string in
       Ok (write_points influxclient series (snd r))
   end)%outcome.

(** ** The scheduler loop of [__main__] *)

Inductive read : Set := GasElectric | Water.

(** [(beat * int(args.interval)) % (6 * 60) == 0] *)
Definition water_due (interval beat : Z) : bool :=
  ((beat * interval) mod (6 * 60) =? 0)%Z.

(** The reads one iteration makes, [r] telling whether the [rtl] object
    exists. The sleep that ends the iteration changes no later decision. *)
Definition tick (r : bool) (interval beat : Z) : list read :=
  if r then GasElectric :: (if water_due interval beat then [Water] else [])
  else [].

(** The first [n] iterations of [while True], from [beat]. *)
Fixpoint main_loop (n : nat) (r : bool) (interval beat : Z) : list (list read) :=
  match n with
  | O => []
  | S n' => tick r interval beat :: main_loop n' r interval (beat + 1)
  end.

(** The ticks among [beat, beat + n) on which the water read fires. *)
Fixpoint water_ticks (n : nat) (interval beat : Z) : list Z :=
  match n with
  | O => []
  | S n' =>
      (if existsb (fun x => match x with Water => true | _ => false end)
            (tick true interval beat)
       then [beat] else []) ++ water_ticks n' interval (beat + 1)
  end.

End Rtl.

(* ===================================================================== *)
(** * Reading the decoder output: what the loop returns *)
(* ===================================================================== *)

Module Reader.
Import Py Rtl.

(** A child with a binary pipe, as [Popen] makes it. *)
Definition child (cmd : list string) (lines : list string) : process :=
  {| cmdline := cmd; mode := Binary; stdout := lines |}.

(** A child with a text pipe: the pipe the loop's end-of-stream test
    ([output == '']) is written for. *)
Definition text_child (cmd : list string) (lines : list string) : process :=
  {| cmdline := cmd; mode := Text; stdout := lines |}.

(** The lines on which the loop goes on: empty, decoded, or malformed. *)
Definition readable (line : string) : bool :=
  String.eqb line EmptyString ||
  match Json.loads line with
  | Ok _ | Raise ValueError => true
  | _ => false
  end.

(** The lines the loop passes over without counting them: the empty ones
    and the malformed ones. *)
Definition skipped (line : string) : bool :=
  String.eqb line EmptyString ||
  match Json.loads line with
  | Raise ValueError => true
  | _ => false
  end.

(** The objects decoded from the lines, in the order of the lines. *)
Fixpoint decoded (lines : list string) : list value :=
  match lines with
  | [] => []
  | line :: rest =>
      if String.eqb line EmptyString then decoded rest
      else match Json.loads line with
           | Ok d => d :: decoded rest
           | _ => decoded rest
           end
  end.

(** [item["Message"][key]] as text: the identifier a message carries. *)
Definition message_id (key : string) (item : value) : outcome string :=
  (let! m := getitem item "Message" in
   let! x := getitem m key in
   str x)%outcome.

End Reader.

(** Concrete decoders and meters used by the examples. *)
Module Examples.
Import Py Rtl.

Definition line (s : string) : string := (Json.text s ++ String Json.newline EmptyString)%string.

(** The message-type token of a command line built by [command_line]. *)
Definition msgtype_of (cmd : list string) : string := nth 4 cmd EmptyString.

(** A decoder that answers each message type with fixed lines. *)
Definition decoder (scm scmplus r900 : list string) : spawner :=
  fun cmd =>
    if String.eqb (msgtype_of cmd) "scm" then scm
    else if String.eqb (msgtype_of cmd) "scm+" then scmplus
    else if String.eqb (msgtype_of cmd) "r900bcd" then r900
    else [].

Definition meter (electric gas water : option string) : rtl :=
  {| rtl_server := "192.168.5.20"; rtl_port := "1234";
     electric_meter_id := electric; gas_meter_id := gas; water_meter_id := water |}.

(** A math library of which one value is known: [np.log(0.5)] is
    [-0.6931471805599453]. *)
Definition log_of_half : Calc.log_library :=
  fun x => if PrimFloat.eqb x 0.5%float then Some (-0.6931471805599453)%float else None.

(** The caller's tags, [{'hostname': hostname}], stored at location 0. *)
Definition w0 : world :=
  {| heap := {[ 0%nat := [("hostname"%string, TagStr "pi")] ]}; trace := [];
     libm := log_of_half |}.

Definition electric_123 : string := line "{'Message':{'ID':'123','Consumption':'4500'}}".
Definition electric_999 : string := line "{'Message':{'ID':'999','Consumption':'4500'}}".
Definition gas_456 : string := line "{'Message':{'EndpointID':'456','Consumption':'1234'}}".
Definition water_789 : string := line "{'Message':{'ID':'789','Consumption':'99'}}".
Definition bare_123 : string := line "{'ID':'123','Consumption':'4500'}".
Definition no_message : string := line "{'Type':'SCM+'}".
Definition null_consumption : string := line "{'Message':{'ID':'789','Consumption':null}}".
Definition not_json : string := line "not json".

Definition msg (id_key id consumption : string) : value :=
  VDict [("Message"%string, VDict [(id_key, VStr id); ("Consumption"%string, VStr consumption)])].

End Examples.


(* ===================================================================== *)
(** * The start of [__main__]: the tags of the command line *)
(* ===================================================================== *)

Module Main.
Import Py.

(** [s.split(sep)] for a separator of one character: the pieces between
    the occurrences of [sep], one more than there are occurrences. *)
Fixpoint split (sep : ascii) (s : string) : list string :=
  match s with
  | EmptyString => [EmptyString]
  | String a r =>
      if Ascii.eqb a sep then EmptyString :: split sep r
      else match split sep r with
           | p :: ps => String a p :: ps
           | [] => [String a EmptyString]
           end
  end.

(** The body of [for s in splits]:
    [tag_split = s.split('='); tags[tag_split[0]] = tag_split[1]]. *)
Definition add_tag (tags : dict string) (s : string) : outcome (dict string) :=
  match split "=" s with
  | name :: value :: _ => Ok (dict_set name value tags)
  | _ => Raise IndexError
  end.

Fixpoint add_tags (tags : dict string) (splits : list string) : outcome (dict string) :=
  match splits with
  | [] => Ok tags
  | s :: rest => (let! tags' := add_tag tags s in add_tags tags' rest)%outcome
  end.

(** [tags = {'hostname': hostname}], completed from [args.tags] when the
    option is given and not empty. *)
Definition parse_tags (hostname : string) (args_tags : option string)
    : outcome (dict string) :=
  let tags := [("hostname"%string, hostname)] in
  match args_tags with
  | None => Ok tags
  | Some s =>
      if String.eqb s EmptyString then Ok tags
      else add_tags tags (split "," s)
  end.

(** The option text [name=value,name=value,...] of a list of tags. *)
Definition render_tag (kv : string * string) : string :=
  (fst kv ++ "=" ++ snd kv)%string.

Definition render_tags (kvs : list (string * string)) : string :=
  String.concat "," (map render_tag kvs).

(** [c] does not occur in [s]. *)
Fixpoint free_of (c : ascii) (s : string) : bool :=
  match s with
  | EmptyString => true
  | String a r => negb (Ascii.eqb a c) && free_of c r
  end.

Definition plain (s : string) : bool := free_of "," s && free_of "=" s.

End Main.

(** What the orchestrator is expected to hand to the sink. *)
Module Expect.
Import Py Rtl.

(** The tags of a point: those of the caller, then [meterid], [units] and
    [version]. *)
Definition meter_tags (id : option string) (units : string) (t : dict tagval)
    : dict tagval :=
  dict_set "version" (TagInt 1)
    (dict_set "units" (TagStr units)
       (dict_set "meterid" (tag_of_id id) t)).

Definition meter_point (name : string) (id : option string) (units : string)
    (t : dict tagval) (timestamp : string) (reading : float) : sent_point :=
  {| sent_measurement := name;
     sent_tags := Some (meter_tags id units t);
     sent_time := timestamp;
     sent_fields := [("reading"%string, reading)] |}.

(** The point of one meter type, when its reading is in the dictionary. *)
Definition meter_points (name : string) (id : option string) (units : string)
    (t : dict tagval) (timestamp : string) (readings : dict float)
    : list sent_point :=
  match dict_get readings name with
  | Some reading => [meter_point name id units t timestamp reading]
  | None => []
  end.

(** The message object [m] does not name the meter [id] under [key]: the
    key is absent, or the text of its value is another identifier. *)
Definition names_other (id key : string) (m : dict value) : Prop :=
  match dict_get m key with
  | None => True
  | Some x => exists sx, str x = Ok sx /\ sx <> id
  end.

(** What the loop over the items is expected to make of a message object
    [m] met when the gas identity is [gas] and the electric identity is
    [electric], in the cases where it goes on: a reading of the gas meter
    (its [EndpointID], a number or a text, reads as [gas]) gives the
    consumption divided by 100 when the consumption is a number or the text
    of one, and nothing when the consumption is absent or is a text that is
    no number; a message that names neither meter gives nothing. *)
Inductive gas_message (gas electric : string) (m : dict value) : option float -> Prop :=
| gas_reading (x c : value) (f : float) :
    dict_get m "EndpointID" = Some x -> str x = Ok gas ->
    dict_get m "Consumption" = Some c -> to_float c = Ok f ->
    gas_message gas electric m (Some (f / 100)%float)
| gas_without_consumption (x : value) :
    dict_get m "EndpointID" = Some x -> str x = Ok gas ->
    dict_get m "Consumption" = None ->
    gas_message gas electric m None
| gas_consumption_not_a_number (x c : value) :
    dict_get m "EndpointID" = Some x -> str x = Ok gas ->
    dict_get m "Consumption" = Some c -> to_float c = Raise ValueError ->
    gas_message gas electric m None
| neither_meter :
    names_other gas "EndpointID" m -> names_other electric "ID" m ->
    gas_message gas electric m None.

(** The dictionary of readings with the electric reading and, if there is
    one, the gas reading. *)
Definition readings_of (electric : float) (gas : option float) : dict float :=
  ("electric"%string, electric) ::
  match gas with
  | Some v => [("gas"%string, v)]
  | None => []
  end.

Definition weather_points (t : option (dict tagval)) (timestamp : string)
    (r : readings) : list sent_point :=
  [ {| sent_measurement := "temperature"; sent_tags := t; sent_time := timestamp;
       sent_fields := [("tempF"%string, tempF r); ("tempC"%string, tempC r)] |};
    {| sent_measurement := "humidity"; sent_tags := t; sent_time := timestamp;
       sent_fields := [("rh"%string, rh r)] |};
    {| sent_measurement := "dewpoint"; sent_tags := t; sent_time := timestamp;
       sent_fields := [("dewF"%string, dewF r); ("dewC"%string, dewC r)] |} ].

End Expect.

(* ===================================================================== *)
(** * The read loop *)
(* ===================================================================== *)

Section ReadLoop.
Import Py Rtl Reader.

Lemma read_loop_eq (fuel n found : nat) (result : list value) (p : process) :
  read_loop fuel n found result p =
  if (found <? n)%nat then
    match fuel with
    | O => OutOfFuel
    | S fuel' =>
        let '(output, p') := readline p in
        if eq_str output EmptyString && exited p' then Ok (result, false)
        else if truthy output then
          match Json.loads (content output) with
          | Ok d => read_loop fuel' n (S found) (result ++ [d]) p'
          | Raise ValueError => read_loop fuel' n found result p'
          | Raise e => Raise e
          | Beyond | OutOfFuel => Beyond
          end
        else read_loop fuel' n found result p'
    end
  else Ok (result, true).
Proof. destruct fuel; reflexivity. Qed.

(** Once [found] has reached [n] the [else] clause runs: the child is killed. *)
Lemma read_loop_complete (fuel n found : nat) (result : list value) (p : process) :
  (n <= found)%nat -> read_loop fuel n found result p = Ok (result, true).
Proof.
  intros H. rewrite read_loop_eq.
  destruct (Nat.ltb_spec found n); [lia | reflexivity].
Qed.

(** One iteration on a binary pipe that still holds a line. *)
Lemma read_loop_line (fuel n found : nat) (result : list value)
    (cmd : list string) (l : string) (rest : list string) :
  (found < n)%nat ->
  read_loop (S fuel) n found result (child cmd (l :: rest)) =
  if String.eqb l EmptyString then read_loop fuel n found result (child cmd rest)
  else match Json.loads l with
       | Ok d => read_loop fuel n (S found) (result ++ [d]) (child cmd rest)
       | Raise ValueError => read_loop fuel n found result (child cmd rest)
       | Raise e => Raise e
       | Beyond | OutOfFuel => Beyond
       end.
Proof.
  intros H. rewrite read_loop_eq.
  destruct (Nat.ltb_spec found n); [| lia].
  cbn [readline child mode stdout cmdline eq_str andb]. unfold truthy. cbn [content].
  destruct (String.eqb l EmptyString); reflexivity.
Qed.

(** One iteration on a binary pipe at the end of the stream: the empty
    [bytes] read is not equal to [''], so the loop does not break, and it is
    not a line either: the state is unchanged. *)
Lemma read_loop_end_of_stream (fuel n found : nat) (result : list value)
    (cmd : list string) :
  (found < n)%nat ->
  read_loop (S fuel) n found result (child cmd []) =
  read_loop fuel n found result (child cmd []).
Proof.
  intros H. rewrite read_loop_eq.
  destruct (Nat.ltb_spec found n); [| lia]. reflexivity.
Qed.

(** More fuel does not change what a run that has ended returned. *)
Lemma read_loop_fuel_mono (fuel : nat) :
  forall (n found : nat) (result : list value) (p : process),
    read_loop fuel n found result p <> OutOfFuel ->
    read_loop (S fuel) n found result p = read_loop fuel n found result p.
Proof.
  induction fuel as [| fuel IH]; intros n found result p H.
  - rewrite read_loop_eq in H. rewrite (read_loop_eq 1), (read_loop_eq 0).
    destruct (found <? n)%nat; [now destruct H | reflexivity].
  - rewrite (read_loop_eq (S fuel)) in H. rewrite (read_loop_eq (S (S fuel))).
    rewrite (read_loop_eq (S fuel)).
    destruct (found <? n)%nat; [| reflexivity].
    destruct (readline p) as [output p'].
    destruct (eq_str output EmptyString && exited p'); [reflexivity |].
    destruct (truthy output); [| now apply IH].
    destruct (Json.loads (content output)) as [d | e | |]; try reflexivity.
    + now apply IH.
    + destruct e; try reflexivity. now apply IH.
Qed.

(** With enough decoded lines the loop ends by its condition, having kept
    exactly the first decoded objects, whatever they are. *)
Lemma read_loop_enough (cmd : list string) (lines : list string) :
  forall (fuel n found : nat) (result : list value),
    forallb readable lines = true ->
    (n <= found + List.length (decoded lines))%nat ->
    (List.length lines <= fuel)%nat ->
    read_loop fuel n found result (child cmd lines) =
    Ok (result ++ firstn (n - found) (decoded lines), true).
Proof.
  induction lines as [| l rest IH]; intros fuel n found result Hr Hn Hf.
  - cbn [decoded List.length] in Hn.
    rewrite read_loop_complete by lia.
    replace (n - found)%nat with 0%nat by lia. cbn [firstn]. now rewrite app_nil_r.
  - destruct (Nat.ltb_spec found n) as [Hlt | Hge].
    + destruct fuel as [| fuel]; [cbn [List.length] in Hf; lia |].
      cbn [forallb] in Hr. apply andb_true_iff in Hr as [Hl Hrest].
      cbn [List.length] in Hf.
      rewrite read_loop_line by exact Hlt.
      cbn [decoded] in Hn |- *. unfold readable in Hl.
      destruct (String.eqb l EmptyString) eqn:El.
      * apply IH; [exact Hrest | exact Hn | lia].
      * cbn [orb] in Hl.
        destruct (Json.loads l) as [d | e | |] eqn:Ed; try discriminate Hl.
        -- cbn [List.length] in Hn.
           rewrite IH by (try exact Hrest; lia).
           replace (n - found)%nat with (S (n - S found)) by lia.
           cbn [firstn]. now rewrite <- app_assoc.
        -- destruct e; try discriminate Hl.
           apply IH; [exact Hrest | exact Hn | lia].
    + rewrite read_loop_complete by lia.
      replace (n - found)%nat with 0%nat by lia. cbn [firstn]. now rewrite app_nil_r.
Qed.

(** With too few decoded lines the loop never ends on a binary pipe: past
    the last line every read is an empty [bytes] object. *)
Lemma read_loop_short (cmd : list string) :
  forall (fuel : nat) (lines : list string) (n found : nat) (result : list value),
    forallb readable lines = true ->
    (found + List.length (decoded lines) < n)%nat ->
    read_loop fuel n found result (child cmd lines) = OutOfFuel.
Proof.
  induction fuel as [| fuel IH]; intros lines n found result Hr Hn.
  - rewrite read_loop_eq. destruct (Nat.ltb_spec found n); [reflexivity | lia].
  - destruct lines as [| l rest].
    + rewrite read_loop_end_of_stream by lia. now apply IH.
    + cbn [forallb] in Hr. apply andb_true_iff in Hr as [Hl Hrest].
      rewrite read_loop_line by lia.
      cbn [decoded] in Hn. unfold readable in Hl.
      destruct (String.eqb l EmptyString) eqn:El.
      * now apply IH.
      * cbn [orb] in Hl.
        destruct (Json.loads l) as [d | e | |] eqn:Ed; try discriminate Hl.
        -- apply IH; [exact Hrest | cbn [List.length] in Hn; lia].
        -- destruct e; try discriminate Hl. now apply IH.
Qed.

(** On a text pipe the same loop stops at the end of the stream and returns
    what it has decoded, without killing the child. *)
Lemma read_loop_text_short (cmd : list string) (lines : list string) :
  forall (fuel n found : nat) (result : list value),
    forallb readable lines = true ->
    (found + List.length (decoded lines) < n)%nat ->
    (List.length lines < fuel)%nat ->
    read_loop fuel n found result (text_child cmd lines) =
    Ok (result ++ decoded lines, false).
Proof.
  induction lines as [| l rest IH]; intros fuel n found result Hr Hn Hf.
  - destruct fuel as [| fuel]; [cbn [List.length] in Hf; lia |].
    rewrite read_loop_eq. destruct (Nat.ltb_spec found n); [| cbn in Hn; lia].
    cbn. now rewrite app_nil_r.
  - destruct fuel as [| fuel]; [cbn [List.length] in Hf; lia |].
    cbn [forallb] in Hr. apply andb_true_iff in Hr as [Hl Hrest].
    cbn [List.length] in Hf. cbn [decoded] in Hn |- *.
    rewrite read_loop_eq. destruct (Nat.ltb_spec found n); [| lia].
    cbn [readline text_child mode stdout cmdline eq_str]. unfold truthy. cbn [content].
    fold (text_child cmd rest). unfold readable in Hl.
    destruct (String.eqb l EmptyString) eqn:El.
    + cbn [negb]. destruct rest as [| l' rest'].
      * cbn [exited stdout text_child andb decoded]. now rewrite app_nil_r.
      * cbn [exited stdout text_child andb].
        apply IH; [exact Hrest | exact Hn | lia].
    + cbn [andb negb orb] in Hl |- *.
      destruct (Json.loads l) as [d | e | |] eqn:Ed; try discriminate Hl.
      * rewrite IH; [now rewrite <- app_assoc | exact Hrest | cbn [List.length] in Hn; lia | lia].
      * destruct e; try discriminate Hl.
        apply IH; [exact Hrest | exact Hn | lia].
Qed.

(** A malformed line put anywhere in the output changes no result. *)
Lemma read_loop_insert_malformed (cmd : list string) (bad : string) (post : list string) :
  Json.loads bad = Raise ValueError ->
  forall (pre : list string) (fuel n found : nat) (result : list value) r,
    read_loop fuel n found result (child cmd (pre ++ post)) = Ok r ->
    read_loop (S fuel) n found result (child cmd (pre ++ bad :: post)) = Ok r.
Proof.
  intros Hbad. induction pre as [| l pre IH]; intros fuel n found result r H.
  - cbn [app] in *. destruct (Nat.ltb_spec found n) as [Hlt | Hge].
    + rewrite read_loop_line by exact Hlt. rewrite Hbad.
      destruct (String.eqb bad EmptyString); exact H.
    + rewrite read_loop_complete in * by lia. exact H.
  - cbn [app] in *. destruct (Nat.ltb_spec found n) as [Hlt | Hge].
    + destruct fuel as [| fuel].
      * rewrite read_loop_eq in H. destruct (Nat.ltb_spec found n); [discriminate H | lia].
      * rewrite read_loop_line in H |- * by exact Hlt.
        destruct (String.eqb l EmptyString); [now apply IH |].
        destruct (Json.loads l) as [d | e | |]; try discriminate H.
        -- now apply IH.
        -- destruct e; try discriminate H. now apply IH.
    + rewrite read_loop_complete in * by lia. exact H.
Qed.

End ReadLoop.

(* ===================================================================== *)
(** * The Streaming Process Reader: [get_rtl_values] *)
(* ===================================================================== *)

Section StreamingReader.
Import Py Rtl Reader Examples.

(** C1 (as amended). For every call of [get_rtl_values], on a decoder
    output that holds at least as many decodable lines as there are required
    identifiers, the loop records the decoded lines in their order of
    arrival, whatever identifier each carries, until their number is the
    number of required identifiers; the child is then killed and the list of
    the recorded messages is returned. *)
Theorem get_rtl_values_returns_first_decoded
    (self : rtl) (popen : spawner) (fuel : nat) (msgtype : string)
    (filterids : list string) (w : world) :
  let cmd := command_line self msgtype filterids in
  forallb readable (popen cmd) = true ->
  (List.length filterids <= List.length (decoded (popen cmd)))%nat ->
  (List.length (popen cmd) <= fuel)%nat ->
  get_rtl_values self popen fuel msgtype filterids w =
  Ok (firstn (List.length filterids) (decoded (popen cmd)),
      log [Spawn cmd; Kill cmd] w).
Proof.
  intros cmd Hr Hn Hf. unfold get_rtl_values, Popen. fold cmd.
  change {| cmdline := cmd; mode := Binary; stdout := popen cmd |}
    with (child cmd (popen cmd)).
  rewrite read_loop_enough by (try assumption; lia).
  cbn [obind fst snd app]. now rewrite Nat.sub_0_r.
Qed.

Lemma get_rtl_values_returns_first_decoded_witness :
  get_rtl_values (meter (Some "123") None None)
    (decoder [electric_123] [] []) 1 "scm" ["123"] w0 =
  Ok ([msg "ID" "123" "4500"],
      log [Spawn (command_line (meter (Some "123") None None) "scm" ["123"]);
           Kill (command_line (meter (Some "123") None None) "scm" ["123"])] w0).
Proof.
  apply (get_rtl_values_returns_first_decoded
           (meter (Some "123") None None) (decoder [electric_123] [] [])
           1 "scm" ["123"] w0).
  - vm_compute. reflexivity.
  - vm_compute. apply le_n.
  - vm_compute. apply le_n.
Defined.

(** C1, refuted as stated: a decoded message is recorded although its
    identifier is not in the required set, and the same identifier is
    recorded twice while a required one is never seen. *)
Lemma get_rtl_values_records_any_message :
  (exists w',
     get_rtl_values (meter (Some "123") None None)
       (decoder [electric_999] [] []) 1 "scm" ["123"] w0 =
     Ok ([msg "ID" "999" "4500"], w'))
  /\ message_id "ID" (msg "ID" "999" "4500") = Ok "999"%string
  /\ ~ In "999"%string ["123"%string]
  /\ (exists w',
     get_rtl_values (meter (Some "123") None None)
       (decoder [electric_123; electric_123] [] []) 2 "scm" ["123"; "456"] w0 =
     Ok ([msg "ID" "123" "4500"; msg "ID" "123" "4500"], w')).
Proof.
  split; [eexists; vm_compute; reflexivity |].
  split; [reflexivity |].
  split; [intros [H | []]; discriminate H |].
  eexists; vm_compute; reflexivity.
Qed.

(** The loop of [get_rtl_values] on an output with too few decodable
    lines. *)
Lemma get_rtl_values_short_output
    (self : rtl) (popen : spawner) (fuel : nat) (msgtype : string)
    (filterids : list string) (w : world) :
  forallb readable (popen (command_line self msgtype filterids)) = true ->
  (List.length (decoded (popen (command_line self msgtype filterids)))
   < List.length filterids)%nat ->
  get_rtl_values self popen fuel msgtype filterids w = OutOfFuel.
Proof.
  intros Hr Hn. unfold get_rtl_values, Popen.
  change {| cmdline := ?c; mode := Binary; stdout := ?l |} with (child c l).
  now rewrite read_loop_short by (try assumption; lia).
Qed.

(** C2. When the decoder output ends before as many lines were decoded as
    there are required identifiers, [get_rtl_values] does not return: the
    read at the end of the stream is the empty [bytes] object, which the test
    [output == ''] does not recognise, so the loop goes on reading. *)
Theorem get_rtl_values_spins_at_end_of_stream
    (self : rtl) (popen : spawner) (fuel : nat) (msgtype : string)
    (filterids : list string) (w : world) :
  let cmd := command_line self msgtype filterids in
  forallb readable (popen cmd) = true ->
  (List.length (decoded (popen cmd)) < List.length filterids)%nat ->
  get_rtl_values self popen fuel msgtype filterids w = OutOfFuel.
Proof.
  intros cmd Hr Hn. now apply get_rtl_values_short_output.
Qed.

Lemma get_rtl_values_spins_at_end_of_stream_witness :
  get_rtl_values (meter (Some "123") None None)
    (decoder [electric_123] [] []) 1000 "scm" ["123"; "456"] w0 = OutOfFuel.
Proof.
  apply (get_rtl_values_spins_at_end_of_stream
           (meter (Some "123") None None) (decoder [electric_123] [] [])
           1000 "scm" ["123"; "456"] w0).
  - vm_compute. reflexivity.
  - vm_compute. apply le_n.
Defined.

(** What the loop is written for: on a text pipe, where the read at the end
    of the stream is [''], a set of two identifiers and one matching line
    give back that one entry. *)
Lemma read_loop_text_one_of_two :
  read_loop 2 2 0 [] (text_child [] [electric_123]) =
  Ok ([msg "ID" "123" "4500"], false).
Proof. vm_compute. reflexivity. Qed.

End StreamingReader.

(* ===================================================================== *)
(** * Malformed lines *)
(* ===================================================================== *)

Section MalformedLines.
Import Py Rtl Reader Examples.

Lemma decoded_app (a b : list string) : decoded (a ++ b) = decoded a ++ decoded b.
Proof.
  induction a as [| l a IH]; cbn [app decoded]; [reflexivity |].
  destruct (String.eqb l EmptyString); [exact IH |].
  destruct (Json.loads l); cbn [app]; now rewrite IH.
Qed.

(** A malformed line is one of the lines the loop goes on from, and it adds
    nothing to what is decoded. *)
Lemma malformed_readable (bad : string) :
  Json.loads bad = Raise ValueError -> readable bad = true.
Proof. intros H. unfold readable. rewrite H. apply orb_true_r. Qed.

Lemma decoded_malformed (pre post : list string) (bad : string) :
  Json.loads bad = Raise ValueError ->
  decoded (pre ++ bad :: post) = decoded (pre ++ post).
Proof.
  intros H. rewrite !decoded_app. cbn [decoded]. rewrite H.
  now destruct (String.eqb bad EmptyString).
Qed.

Lemma readable_malformed (pre post : list string) (bad : string) :
  Json.loads bad = Raise ValueError ->
  forallb readable (pre ++ post) = true ->
  forallb readable (pre ++ bad :: post) = true.
Proof.
  intros H. rewrite !forallb_app. cbn [forallb].
  rewrite (malformed_readable bad H). cbn [andb]. tauto.
Qed.

(** C8 (as amended). A line of the decoder output on which [json.loads]
    raises [ValueError] is skipped and the loop goes on: on an output that
    holds such a line, and besides it enough lines that decode, the call
    returns the first decoded messages of the other lines, as many as there
    are required identifiers, and kills the child; and whatever the call
    returns on an output, it returns on that output with such a line put
    anywhere in it. *)
Theorem malformed_line_is_skipped
    (self : rtl) (popen : spawner) (fuel : nat) (msgtype : string)
    (filterids : list string) (w : world)
    (pre post : list string) (bad : string) :
  let cmd := command_line self msgtype filterids in
  Json.loads bad = Raise ValueError ->
  popen cmd = pre ++ bad :: post ->
  forallb readable (pre ++ post) = true ->
  (List.length filterids <= List.length (decoded (pre ++ post)))%nat ->
  (List.length (pre ++ bad :: post) <= fuel)%nat ->
  get_rtl_values self popen fuel msgtype filterids w =
    Ok (firstn (List.length filterids) (decoded (pre ++ post)),
        log [Spawn cmd; Kill cmd] w)
  /\ (forall (popen' : spawner) (fuel' : nat) (r : list value * world),
        popen' cmd = pre ++ post ->
        get_rtl_values self popen' fuel' msgtype filterids w = Ok r ->
        get_rtl_values self popen (S fuel') msgtype filterids w = Ok r).
Proof.
  intros cmd Hbad Hp Hr Hn Hf. split.
  - unfold get_rtl_values, Popen. fold cmd. rewrite Hp.
    change {| cmdline := cmd; mode := Binary; stdout := pre ++ bad :: post |}
      with (child cmd (pre ++ bad :: post)).
    rewrite read_loop_enough;
      [ | now apply readable_malformed
        | rewrite (decoded_malformed pre post bad Hbad); lia
        | exact Hf ].
    cbn [obind fst snd app].
    now rewrite Nat.sub_0_r, (decoded_malformed pre post bad Hbad).
  - intros popen' fuel' r Hp'. unfold get_rtl_values, Popen. fold cmd.
    rewrite Hp, Hp'.
    change {| cmdline := cmd; mode := Binary; stdout := pre ++ post |}
      with (child cmd (pre ++ post)).
    change {| cmdline := cmd; mode := Binary; stdout := pre ++ bad :: post |}
      with (child cmd (pre ++ bad :: post)).
    destruct (read_loop fuel' _ 0 [] (child cmd (pre ++ post))) as [x | | |] eqn:E;
      try discriminate.
    now rewrite (read_loop_insert_malformed cmd bad post Hbad pre _ _ _ _ _ E).
Qed.

(** One malformed line followed by a valid matching line: the match is
    returned. *)
Lemma malformed_line_is_skipped_witness :
  get_rtl_values (meter (Some "123") None None)
    (decoder [not_json; electric_123] [] []) 2 "scm" ["123"] w0 =
  Ok ([msg "ID" "123" "4500"],
      log [Spawn (command_line (meter (Some "123") None None) "scm" ["123"]);
           Kill (command_line (meter (Some "123") None None) "scm" ["123"])] w0).
Proof.
  apply (malformed_line_is_skipped
           (meter (Some "123") None None)
           (decoder [not_json; electric_123] [] [])
           2 "scm" ["123"] w0 [] [electric_123] not_json).
  - vm_compute. reflexivity.
  - reflexivity.
  - vm_compute. reflexivity.
  - vm_compute. apply le_n.
  - vm_compute. apply le_n.
Defined.

(** C8, refuted as stated: the line [NaN] is not JSON, yet [json.loads]
    accepts it (as it accepts [Infinity]), so the line is not skipped: it is
    recorded as a message, and with one identifier asked for it is returned
    in place of the valid matching line that follows it. *)
Lemma line_that_is_not_json_is_recorded :
  Json.loads (line "NaN") = Ok (VFloat nan)
  /\ Json.loads (line "{'Message': Infinity}") =
     Ok (VDict [("Message"%string, VFloat infinity)])
  /\ get_rtl_values (meter (Some "123") None None)
       (decoder [line "NaN"; electric_123] [] []) 2 "scm" ["123"] w0 =
     Ok ([VFloat nan],
         log [Spawn (command_line (meter (Some "123") None None) "scm" ["123"]);
              Kill (command_line (meter (Some "123") None None) "scm" ["123"])] w0).
Proof. repeat split; vm_compute; reflexivity. Qed.

End MalformedLines.

(* ===================================================================== *)
(** * The scheduler loop *)
(* ===================================================================== *)

Section Scheduler.
Import Rtl.

Lemma water_due_divide (interval beat : Z) :
  water_due interval beat = true <-> (360 | beat * interval)%Z.
Proof.
  unfold water_due. change (6 * 60)%Z with 360%Z.
  rewrite Z.eqb_eq. apply Z.mod_divide. discriminate.
Qed.

Lemma water_in_tick (interval beat : Z) :
  In Water (tick true interval beat) <-> water_due interval beat = true.
Proof.
  unfold tick. destruct (water_due interval beat); cbn; split; intros H.
  - reflexivity.
  - right. now left.
  - destruct H as [H | []]. discriminate H.
  - discriminate H.
Qed.

(** The [i]-th iteration of the loop is the tick of count [beat + i]. *)
Lemma main_loop_nth (n : nat) :
  forall (r : bool) (interval beat : Z) (i : nat),
    (i < n)%nat ->
    nth i (main_loop n r interval beat) [] = tick r interval (beat + Z.of_nat i).
Proof.
  induction n as [| n IH]; intros r interval beat i Hi; [lia |].
  destruct i as [| i]; cbn [main_loop nth].
  - now rewrite Z.add_0_r.
  - rewrite IH by lia. f_equal. lia.
Qed.

(** C3 (as amended). The gas/electric read is made on every tick. The water
    read is made exactly on the ticks whose count times the interval (in
    minutes) is a multiple of 360, that is on every
    [360 / gcd(interval, 360)]-th tick: every sixth tick when the interval is
    60 (ticks 0 and 6 among twelve), every 72nd at the default interval of 5
    (tick 0 alone among twelve). *)
Theorem water_read_cadence :
  (forall interval beat : Z, In GasElectric (tick true interval beat))
  /\ (forall interval beat : Z,
        In Water (tick true interval beat) <->
        (360 / Z.gcd interval 360 | beat)%Z)
  /\ water_ticks 12 60 0 = [0; 6]%Z
  /\ water_ticks 12 5 0 = [0]%Z.
Proof.
  split; [intros; now left |].
  split; [| split; reflexivity].
  intros interval beat. rewrite water_in_tick, water_due_divide.
  set (g := Z.gcd interval 360).
  assert (Hg : (0 < g)%Z).
  { assert (0 <= g)%Z by apply Z.gcd_nonneg.
    assert (g <> 0)%Z; [| lia].
    unfold g. intros E. apply Z.gcd_eq_0_r in E. discriminate E. }
  destruct (Z.gcd_divide_l interval 360) as [a Ha].
  destruct (Z.gcd_divide_r interval 360) as [m Hm].
  fold g in Ha, Hm.
  assert (Hq : (360 / g = m)%Z).
  { rewrite Hm at 1. apply Z.div_mul. lia. }
  assert (Hco : Z.gcd m a = 1%Z).
  { assert (H1 : Z.gcd (interval / g) (360 / g) = 1%Z)
      by (apply Z.gcd_div_gcd; [lia | reflexivity]).
    rewrite Hq in H1. rewrite Ha in H1 at 1. rewrite Z.div_mul in H1 by lia.
    now rewrite Z.gcd_comm. }
  rewrite Hq. split.
  - intros [k Hk].
    apply (Z.gauss m a beat); [| exact Hco].
    exists k. apply (Z.mul_cancel_r _ _ g); [lia |].
    rewrite Ha in Hk. rewrite Hm in Hk. lia.
  - intros [k Hk]. exists (k * a)%Z.
    transitivity (k * a * (m * g))%Z; [| now rewrite <- Hm].
    rewrite Hk. rewrite Ha at 1. ring.
Qed.

(** C3, refuted as stated: at the default interval of 5 minutes the water
    read is made on tick 0 alone among the first twelve ticks, and tick 6
    does not fire. *)
Lemma water_read_not_every_six_ticks :
  water_ticks 12 5 0 = [0]%Z /\ water_due 5 6 = false.
Proof. split; reflexivity. Qed.

End Scheduler.

(* ===================================================================== *)
(** * The dewpoint *)
(* ===================================================================== *)

Section Dewpoint.
Import Calc.
Local Open Scope R_scope.






(** ** The binary64 function against the formula *)

Import QArith_base Qreals Qabs.
Local Open Scope R_scope.










End Dewpoint.

(* ===================================================================== *)
(** * The tags of the caller *)
(* ===================================================================== *)

Section Tags.
Import Py Rtl Reader Examples.

Lemma obind_Ok {A B : Type} (m : outcome A) (k : A -> outcome B) (b : B) :
  obind m k = Ok b -> exists a, m = Ok a /\ k a = Ok b.
Proof. destruct m; cbn; intros H; try discriminate H. eauto. Qed.

Lemma get_rtl_values_heap (self : rtl) (popen : spawner) (fuel : nat)
    (msgtype : string) (filterids : list string) (w : world) r :
  get_rtl_values self popen fuel msgtype filterids w = Ok r ->
  heap (snd r) = heap w.
Proof.
  unfold get_rtl_values. intros H.
  apply obind_Ok in H as (x & _ & H). injection H as <-. reflexivity.
Qed.

Lemma get_gas_and_electric_reading_heap (self : rtl) (popen : spawner) (fuel : nat)
    (w : world) r :
  get_gas_and_electric_reading self popen fuel w = Ok r ->
  heap (snd r) = heap w.
Proof.
  unfold get_gas_and_electric_reading, __get_gas_and_electric_reading.
  destruct (_ =? 0)%nat.
  - intros H. injection H as <-. reflexivity.
  - intros H. apply obind_Ok in H as (r1 & H1 & H).
    apply obind_Ok in H as (r2 & H2 & H).
    assert (E1 : heap (snd r1) = heap w).
    { destruct (0 <? _)%nat.
      - apply obind_Ok in H1 as (x & Hx & H1). injection H1 as <-.
        now apply get_rtl_values_heap in Hx.
      - injection H1 as <-. reflexivity. }
    assert (E2 : heap (snd r2) = heap (snd r1)).
    { destruct (0 <? List.length (if configured (gas_meter_id self) then _ else _))%nat.
      - apply obind_Ok in H2 as (x & Hx & H2). injection H2 as <-.
        now apply get_rtl_values_heap in Hx.
      - injection H2 as <-. reflexivity. }
    destruct (fst r1); [| discriminate H].
    destruct (fst r2); [| discriminate H].
    apply obind_Ok in H as (d & _ & H). injection H as <-.
    cbn [snd]. congruence.
Qed.

Lemma get_water_reading_heap (self : rtl) (popen : spawner) (fuel : nat)
    (w : world) r :
  get_water_reading self popen fuel w = Ok r ->
  heap (snd r) = heap w.
Proof.
  unfold get_water_reading. destruct (water_meter_id self).
  - intros H. apply obind_Ok in H as (x & Hx & H).
    apply obind_Ok in H as (y & _ & H). injection H as <-.
    now apply get_rtl_values_heap in Hx.
  - intros H. injection H as <-. reflexivity.
Qed.

Lemma write_points_heap (client : bool) (series : list point) (w : world) :
  heap (write_points client series w) = heap w.
Proof. unfold write_points. now destruct client. Qed.

(** The three assignments on the dict that [l] refers to. *)
Lemma set_meter_tags_eq (l : loc) (id : option string) (units : string)
    (w : world) (t : dict tagval) :
  heap w !! l = Some t ->
  set_meter_tags l id units w =
  Ok (store l (dict_set "version" (TagInt 1)
                 (dict_set "units" (TagStr units)
                    (dict_set "meterid" (tag_of_id id) t)))
        (store l (dict_set "units" (TagStr units)
                    (dict_set "meterid" (tag_of_id id) t))
           (store l (dict_set "meterid" (tag_of_id id) t) w))).
Proof.
  intros H. unfold set_meter_tags, setitem. rewrite H. cbn [obind store heap].
  rewrite lookup_insert_eq. cbn [obind store heap].
  rewrite lookup_insert_eq. reflexivity.
Qed.

Lemma set_meter_tags_at (l : loc) (id : option string) (units : string)
    (w : world) (t : dict tagval) :
  heap w !! l = Some t ->
  exists w',
    set_meter_tags l id units w = Ok w' /\
    trace w' = trace w /\
    heap w' !! l =
      Some (dict_set "version" (TagInt 1)
              (dict_set "units" (TagStr units)
                 (dict_set "meterid" (tag_of_id id) t))) /\
    forall l', l' <> l -> heap w' !! l' = heap w !! l'.
Proof.
  intros H. rewrite (set_meter_tags_eq l id units w t H).
  eexists. split; [reflexivity |].
  cbn [store heap trace]. split; [reflexivity |].
  split; [apply lookup_insert_eq |].
  intros l' Hne. now rewrite !lookup_insert_ne by congruence.
Qed.

(** A branch of [do_gas_electric_meter_reading] works on a copy: the dict
    passed by the caller is as it was. *)
Lemma add_point_keeps_caller (name : string) (id : option string) (units : string)
    (readings : dict float) (timestamp : string) (tags : loc)
    (st st' : list point * world) (t : dict tagval) :
  heap (snd st) !! tags = Some t ->
  add_point name id units readings timestamp tags st = Ok st' ->
  heap (snd st') !! tags = Some t.
Proof.
  intros Ht. unfold add_point. destruct (dict_get readings name).
  - unfold copy. rewrite Ht. cbn [obind fst snd].
    set (l' := fresh (dom (heap (snd st)))).
    assert (Hne : tags <> l').
    { intros E. apply (is_fresh (dom (heap (snd st)))). fold l'. rewrite <- E.
      apply elem_of_dom. now exists t. }
    destruct (set_meter_tags_at l' id units (store l' t (snd st)) t)
      as (w' & Hw' & _ & _ & Hother).
    { cbn [store heap]. apply lookup_insert_eq. }
    rewrite Hw'. cbn [obind]. intros H. injection H as <-. cbn [snd].
    rewrite Hother by exact Hne. cbn [store heap].
    rewrite lookup_insert_ne by congruence. exact Ht.
  - intros H. injection H as <-. exact Ht.
Qed.

End Tags.

(* ===================================================================== *)
(** * [json.loads] raises nothing but [ValueError] *)
(* ===================================================================== *)

Section JsonErrors.
Import Py Json.

Lemma only_ValueError_Ok {A : Type} (a : A) : only_ValueError (Ok a).
Proof. intros e H. discriminate H. Qed.

Lemma only_ValueError_Beyond {A : Type} : only_ValueError (@Beyond A).
Proof. intros e H. discriminate H. Qed.

Lemma only_ValueError_Raise {A : Type} : only_ValueError (@Raise A ValueError).
Proof. intros e H. now injection H as <-. Qed.

Lemma only_ValueError_bind {A B : Type} (m : outcome A) (k : A -> outcome B) :
  only_ValueError m -> (forall a, only_ValueError (k a)) ->
  only_ValueError (obind m k).
Proof.
  intros Hm Hk e. destruct m as [a | e' | |]; cbn; intros H.
  - now apply (Hk a).
  - injection H as <-. now apply Hm.
  - discriminate H.
  - discriminate H.
Qed.

Local Hint Resolve only_ValueError_Ok only_ValueError_Beyond only_ValueError_Raise : json.

Lemma cons_char_only_ValueError (c : ascii) (m : outcome (string * string)) :
  only_ValueError m -> only_ValueError (cons_char c m).
Proof.
  intros H. unfold cons_char. apply only_ValueError_bind; auto with json.
Qed.

Lemma scanstring_only_ValueError (n : nat) :
  forall s, (String.length s <= n)%nat -> only_ValueError (scanstring s).
Proof.
  induction n as [| n IH]; intros s Hn.
  - destruct s; [apply only_ValueError_Raise | cbn in Hn; lia].
  - destruct s as [| c r]; [apply only_ValueError_Raise |].
    cbn [String.length] in Hn. cbn [scanstring].
    destruct (Ascii.eqb c dquote); [auto with json |].
    destruct (Ascii.eqb c backslash).
    + destruct r as [| e r1]; [auto with json |].
      cbn [String.length] in Hn.
      destruct (unescape e).
      * apply cons_char_only_ValueError, IH. lia.
      * destruct (Ascii.eqb e "u"); [| auto with json].
        destruct r1 as [| h1 [| h2 [| h3 [| h4 r2]]]]; auto with json.
        cbn [String.length] in Hn.
        destruct (hex4 h1 h2 h3 h4); [| auto with json].
        destruct (_ <? 128)%N; [| auto with json].
        apply cons_char_only_ValueError, IH. lia.
    + destruct (code c <=? 31)%N; [auto with json |].
      apply cons_char_only_ValueError, IH. lia.
Qed.

Lemma lex_only_ValueError (fuel : nat) :
  forall s, only_ValueError (lex fuel s).
Proof.
  induction fuel as [| fuel IH]; intros s.
  - destruct s; cbn; auto with json.
  - destruct s as [| c r]; [cbn; auto with json |].
    cbn [lex].
    assert (Hone : forall t rest,
      only_ValueError (let! ts := lex fuel rest in Ok (t :: ts))%outcome).
    { intros t rest. apply only_ValueError_bind; auto with json. }
    repeat match goal with
           | |- only_ValueError (if ?b then _ else _) => destruct b
           end; auto with json.
    + apply only_ValueError_bind.
      * apply (scanstring_only_ValueError (String.length r)). lia.
      * intros p. apply Hone.
    + destruct (scan_number (String c r)) as [[v [| c' r']] |]; auto with json.
      * destruct (_ <? _)%nat; auto with json.
      * destruct (scan_literal literals (String c r)) as [[v rest] |]; auto with json.
        destruct (_ <? _)%nat; auto with json.
Qed.

Lemma parse_only_ValueError (fuel : nat) :
  (forall ts, only_ValueError (parse_value fuel ts))
  /\ (forall acc ts, only_ValueError (parse_elements fuel acc ts))
  /\ (forall acc ts, only_ValueError (parse_members fuel acc ts)).
Proof.
  induction fuel as [| fuel (IHv & IHe & IHm)].
  - repeat split; intros; cbn; auto with json.
  - repeat split.
    + intros ts. cbn [parse_value].
      destruct ts as [| [] r]; auto with json.
      * destruct r as [| [] r']; auto with json.
      * destruct r as [| [] r']; auto with json.
    + intros acc ts. cbn [parse_elements].
      pose proof (IHv ts) as Hv.
      destruct (parse_value fuel ts) as [[v [| [] r]] | e | |]; auto with json.
    + intros acc ts. cbn [parse_members].
      destruct ts as [| [] [| [] r]]; auto with json.
      pose proof (IHv r) as Hv.
      destruct (parse_value fuel r) as [[v [| [] r']] | e | |]; auto with json.
Qed.

Lemma loads_only_ValueError (line : string) : only_ValueError (loads line).
Proof.
  unfold loads. destruct (negb (modelled line)); [auto with json |].
  apply only_ValueError_bind; [apply lex_only_ValueError |].
  intros ts. pose proof (proj1 (parse_only_ValueError (2 * List.length ts + 2)) ts) as H.
  destruct (parse_value _ ts) as [[v [| t r]] | e | |]; auto with json.
  intros e' He. injection He as <-. now apply H.
Qed.

End JsonErrors.

(* ===================================================================== *)
(** * The gas and electric read *)
(* ===================================================================== *)

Section GasElectric.
Import Py Rtl Reader Examples.

Lemma read_loop_never_raises (fuel : nat) :
  forall (n found : nat) (result : list value) (p : process) (e : exn),
    read_loop fuel n found result p <> Raise e.
Proof.
  induction fuel as [| fuel IH]; intros n found result p e; rewrite read_loop_eq;
    destruct (found <? n)%nat; try discriminate.
  destruct (readline p) as [output p'].
  destruct (eq_str output EmptyString && exited p'); [discriminate |].
  destruct (truthy output); [| apply IH].
  pose proof (loads_only_ValueError (content output)) as Hve.
  destruct (Json.loads (content output)) as [d | e' | |]; try discriminate.
  - apply IH.
  - rewrite (Hve e' eq_refl). apply IH.
Qed.

Lemma get_rtl_values_never_raises (self : rtl) (popen : spawner) (fuel : nat)
    (msgtype : string) (filterids : list string) (w : world) (e : exn) :
  get_rtl_values self popen fuel msgtype filterids w <> Raise e.
Proof.
  unfold get_rtl_values.
  pose proof (read_loop_never_raises fuel (List.length filterids) 0 []
                (Popen popen (command_line self msgtype filterids))) as H.
  destruct (read_loop _ _ _ _ _) as [r | e' | |]; cbn; try discriminate.
  now destruct (H e').
Qed.

(** With neither identity configured no child is started and no point is
    built: the call only hands the sink an empty series. *)
Lemma do_gas_electric_unconfigured (self : rtl) (popen : spawner) (fuel : nat)
    (influxclient : bool) (timestamp : string) (tags : loc) (w : world) :
  configured (gas_meter_id self) = false ->
  configured (electric_meter_id self) = false ->
  do_gas_electric_meter_reading self popen fuel influxclient timestamp tags w =
  Ok (write_points influxclient [] w).
Proof.
  intros Hg He.
  unfold do_gas_electric_meter_reading, get_gas_and_electric_reading,
    __get_gas_and_electric_reading.
  rewrite Hg, He. reflexivity.
Qed.

(** C5. With exactly one of the gas and electric identities configured,
    [do_gas_electric_meter_reading] never returns normally: once the child of
    the configured type has been read, the list of the other type is an
    unbound local name, and the call leaves through [UnboundLocalError]
    (unless it is still reading, or the decoder output is outside the
    model). *)
Theorem one_identity_raises_unbound_local
    (self : rtl) (popen : spawner) (fuel : nat) (influxclient : bool)
    (timestamp : string) (tags : loc) (w : world) :
  xorb (configured (gas_meter_id self)) (configured (electric_meter_id self)) = true ->
  do_gas_electric_meter_reading self popen fuel influxclient timestamp tags w
    = Raise UnboundLocalError
  \/ do_gas_electric_meter_reading self popen fuel influxclient timestamp tags w
    = OutOfFuel
  \/ do_gas_electric_meter_reading self popen fuel influxclient timestamp tags w
    = Beyond.
Proof.
  intros Hx.
  unfold do_gas_electric_meter_reading, get_gas_and_electric_reading,
    __get_gas_and_electric_reading.
  destruct (configured (gas_meter_id self)), (configured (electric_meter_id self));
    try discriminate Hx; cbn [List.length Nat.add Nat.eqb Nat.ltb Nat.leb obind fst snd].
  - pose proof (get_rtl_values_never_raises self popen fuel "scm+"
                  [str_id (gas_meter_id self)] w) as Hn.
    destruct (get_rtl_values self popen fuel "scm+" _ w) as [r | e | |];
      cbn; auto.
    now destruct (Hn e).
  - pose proof (get_rtl_values_never_raises self popen fuel "scm"
                  [str_id (electric_meter_id self)] w) as Hn.
    destruct (get_rtl_values self popen fuel "scm" _ w) as [r | e | |];
      cbn; auto.
    now destruct (Hn e).
Qed.

Lemma one_identity_raises_unbound_local_witness :
  do_gas_electric_meter_reading (meter (Some "123") None None)
    (decoder [electric_123] [] []) 1 true "t" 0%nat w0 = Raise UnboundLocalError
  \/ do_gas_electric_meter_reading (meter (Some "123") None None)
    (decoder [electric_123] [] []) 1 true "t" 0%nat w0 = OutOfFuel
  \/ do_gas_electric_meter_reading (meter (Some "123") None None)
    (decoder [electric_123] [] []) 1 true "t" 0%nat w0 = Beyond.
Proof.
  apply (one_identity_raises_unbound_local (meter (Some "123") None None)
           (decoder [electric_123] [] []) 1 true "t" 0%nat w0).
  reflexivity.
Defined.

(** The electric identity alone, and a decoder that answers with the
    reading: the call raises; so does the gas identity alone. *)
Lemma electric_only_raises :
  do_gas_electric_meter_reading (meter (Some "123") None None)
    (decoder [electric_123] [] []) 1 true "t" 0%nat w0 = Raise UnboundLocalError
  /\ do_gas_electric_meter_reading (meter None (Some "456") None)
    (decoder [] [gas_456] []) 1 true "t" 0%nat w0 = Raise UnboundLocalError.
Proof. split; vm_compute; reflexivity. Qed.

(** [get_electric_reading] and [get_gas_reading], written for one meter
    alone, pass [None] for the other identity and raise the same way. *)
Lemma single_meter_readings_raise :
  get_electric_reading (meter (Some "123") None None)
    (decoder [electric_123] [] []) 1 w0 = Raise UnboundLocalError
  /\ get_gas_reading (meter None (Some "456") None)
    (decoder [] [gas_456] []) 1 w0 = Raise UnboundLocalError.
Proof. split; vm_compute; reflexivity. Qed.

(** A message without the [Message] object stops the loop over the items:
    the subscript in the test of the [if] is outside the [try]. *)
Lemma reading_step_without_message (gas electric : option string)
    (d : dict float) (item : value) :
  configured gas || configured electric = true ->
  getitem item "Message" = Raise KeyError ->
  reading_step gas electric d item = Raise KeyError.
Proof.
  intros Hc Hm. unfold reading_step, item_matches. rewrite Hm.
  destruct (configured gas); [reflexivity |].
  cbn [orb] in Hc. rewrite Hc. reflexivity.
Qed.

(** C4. The failing pass: both identities configured, the electric message
    well formed, the gas message without its [Message] object. The
    extraction leaves through [KeyError] and the electric reading, already
    extracted, is lost; a gas consumption of [null] ends it by [TypeError].
    With the gas message well formed, or only its [Consumption] missing or
    not a number, the electric reading is returned. *)
Theorem missing_message_aborts_extraction :
  get_gas_and_electric_reading (meter (Some "123") (Some "456") None)
    (decoder [electric_123] [no_message] []) 1 w0 = Raise KeyError
  /\ get_gas_and_electric_reading (meter (Some "123") (Some "456") None)
    (decoder [electric_123]
       [line "{'Message':{'EndpointID':'456','Consumption':null}}"] []) 1 w0
     = Raise TypeError
  /\ (exists w',
     get_gas_and_electric_reading (meter (Some "123") (Some "456") None)
       (decoder [electric_123] [gas_456] []) 1 w0 =
     Ok ([("electric"%string, 45%float); ("gas"%string, 12.34%float)], w'))
  /\ (exists w',
     get_gas_and_electric_reading (meter (Some "123") (Some "456") None)
       (decoder [electric_123] [line "{'Message':{'EndpointID':'456'}}"] []) 1 w0 =
     Ok ([("electric"%string, 45%float)], w'))
  /\ (exists w',
     get_gas_and_electric_reading (meter (Some "123") (Some "456") None)
       (decoder [electric_123]
          [line "{'Message':{'EndpointID':'456','Consumption':'abc'}}"] []) 1 w0 =
     Ok ([("electric"%string, 45%float)], w')).
Proof.
  split; [vm_compute; reflexivity |].
  split; [vm_compute; reflexivity |].
  split; [eexists; vm_compute; reflexivity |].
  split; eexists; vm_compute; reflexivity.
Qed.

(** C6, refuted as stated: on the line [{"ID":"123","Consumption":"4500"}],
    which has no [Message] object, the extractor raises, with the gas identity
    configured ([KeyError]) or not ([UnboundLocalError]). *)
Lemma bare_line_gives_no_reading :
  get_gas_and_electric_reading (meter (Some "123") (Some "456") None)
    (decoder [bare_123] [gas_456] []) 1 w0 = Raise KeyError
  /\ get_gas_and_electric_reading (meter (Some "123") None None)
    (decoder [bare_123] [] []) 1 w0 = Raise UnboundLocalError.
Proof. split; vm_compute; reflexivity. Qed.

(** The loop over the items on the electric message of meter 123. *)
Lemma reading_step_electric_123 (gas : option string) (d : dict float) :
  reading_step gas (Some "123"%string) d (msg "ID" "123" "4500") =
  Ok (dict_set "electric" 45%float d).
Proof.
  unfold reading_step, item_matches.
  destruct (configured gas); vm_compute; reflexivity.
Qed.

(** The loop over the items on a message of the configured gas meter. *)
Lemma reading_step_gas (gas : string) (electric : option string) (d : dict float)
    (consumption : value) (ccf : float) :
  gas <> EmptyString ->
  to_float consumption = Ok ccf ->
  reading_step (Some gas) electric d
    (VDict [("Message"%string,
             VDict [("EndpointID"%string, VStr gas);
                    ("Consumption"%string, consumption)])]) =
  Ok (dict_set "gas" (ccf / 100)%float d).
Proof.
  intros Hne Hf. unfold reading_step, item_matches, record_reading.
  assert (Hcg : configured (Some gas) = true).
  { cbn. destruct (String.eqb_spec gas EmptyString); [contradiction | reflexivity]. }
  rewrite Hcg.
  cbn -[to_float PrimFloat.div].
  rewrite String.eqb_refl. rewrite Hf. reflexivity.
Qed.

End GasElectric.

(* ===================================================================== *)
(** * The water read *)
(* ===================================================================== *)

Section Water.
Import Py Rtl Reader Examples.

(** With no water identity the call starts no child, builds no point and
    changes nothing. *)
Lemma do_water_unconfigured (self : rtl) (popen : spawner) (fuel : nat)
    (influxclient : bool) (timestamp : string) (tags : loc) (w : world) :
  water_meter_id self = None ->
  do_water_meter_reading self popen fuel influxclient timestamp tags w = Ok w.
Proof.
  intros H. unfold do_water_meter_reading, get_water_reading. now rewrite H.
Qed.

(** The failures the [except] clauses cover: the message has no [Message] or
    no [Consumption], or its consumption is not the text of a number. The
    reading is [None] and nothing is sent. *)
Lemma do_water_handled_failures :
  Forall
    (fun l =>
       do_water_meter_reading (meter None None (Some "789"))
         (decoder [] [] [l]) 1 true "t" 0%nat w0 =
       Ok (log [Spawn (command_line (meter None None (Some "789")) "r900bcd" ["789"]);
                Kill (command_line (meter None None (Some "789")) "r900bcd" ["789"])] w0))
    [ line "{'Type':'R900'}";
      line "{'Message':{'ID':'789'}}";
      line "{'Message':{'ID':'789','Consumption':'abc'}}" ].
Proof. repeat constructor. Qed.

(** On success one point is built and sent. *)
Lemma do_water_success :
  exists w',
    do_water_meter_reading (meter None None (Some "789"))
      (decoder [] [] [water_789]) 1 true "t" 0%nat w0 = Ok w'
    /\ trace w' =
       [Spawn (command_line (meter None None (Some "789")) "r900bcd" ["789"]);
        Kill (command_line (meter None None (Some "789")) "r900bcd" ["789"]);
        WritePoints
          [{| sent_measurement := "water";
              sent_tags := Some [("hostname"%string, TagStr "pi");
                                 ("meterid"%string, TagStr "789");
                                 ("units"%string, TagStr "hcf");
                                 ("version"%string, TagInt 1)];
              sent_time := "t";
              sent_fields := [("reading"%string, (99 / 100)%float)] |}]].
Proof. eexists. split; vm_compute; reflexivity. Qed.

(** A consumption that is [null], or a decoded line that is not an object,
    ends the call by a [TypeError], which no clause covers. *)
Lemma do_water_type_error :
  do_water_meter_reading (meter None None (Some "789"))
    (decoder [] [] [null_consumption]) 1 true "t" 0%nat w0 = Raise TypeError
  /\ do_water_meter_reading (meter None None (Some "789"))
    (decoder [] [] [line "[1]"]) 1 true "t" 0%nat w0 = Raise TypeError.
Proof. split; vm_compute; reflexivity. Qed.

(** C7. The failing call: the water identity is configured and the decoder
    exits without a decodable line (no decoder result). The call does not
    return "no reading": it does not return at all, the read loop of
    [get_rtl_values] going on past the end of the stream, so the clause for an
    empty result ([IndexError]) is never reached. *)
Theorem water_read_hangs_without_output
    (self : rtl) (popen : spawner) (fuel : nat) (influxclient : bool)
    (timestamp : string) (tags : loc) (w : world) (id : string) :
  water_meter_id self = Some id ->
  forallb readable (popen (command_line self "r900bcd" [id])) = true ->
  decoded (popen (command_line self "r900bcd" [id])) = [] ->
  do_water_meter_reading self popen fuel influxclient timestamp tags w = OutOfFuel.
Proof.
  intros Hid Hr Hd. unfold do_water_meter_reading, get_water_reading.
  rewrite Hid. cbn [str_id].
  rewrite (get_rtl_values_short_output self popen fuel "r900bcd" [id] w).
  - reflexivity.
  - exact Hr.
  - rewrite Hd. cbn. lia.
Qed.

Lemma water_read_hangs_without_output_witness :
  do_water_meter_reading (meter None None (Some "789"))
    (decoder [] [] []) 1000 true "t" 0%nat w0 = OutOfFuel.
Proof.
  apply (water_read_hangs_without_output (meter None None (Some "789"))
           (decoder [] [] []) 1000 true "t" 0%nat w0 "789").
  - reflexivity.
  - reflexivity.
  - reflexivity.
Defined.

End Water.

(* ===================================================================== *)
(** * The weather reader *)
(* ===================================================================== *)

Section Weather.
Import Py Rtl Reader Examples.

Lemma weather_loop_eq (fuel : nat) (st : weather_state) (p : process) :
  weather_loop fuel st p =
  if negb (foundH st) || negb (foundT st) then
    match fuel with
    | O => OutOfFuel
    | S fuel' =>
        let '(output, p') := readline p in
        if eq_str output EmptyString && exited p' then Ok (st, false)
        else if truthy output then
          match Json.loads (content output) with
          | Ok d =>
              (let! st' := weather_step st d in weather_loop fuel' st' p')%outcome
          | Raise ValueError => weather_loop fuel' st p'
          | Raise e => Raise e
          | Beyond | OutOfFuel => Beyond
          end
        else weather_loop fuel' st p'
    end
  else Ok (st, true).
Proof. destruct fuel; reflexivity. Qed.

(** The loop of [get_values] skips a malformed line as the loop of
    [get_rtl_values] does. *)
Lemma weather_loop_skips_malformed (fuel : nat) (st : weather_state)
    (cmd : list string) (bad : string) (rest : list string) :
  Json.loads bad = Raise ValueError ->
  negb (foundH st) || negb (foundT st) = true ->
  weather_loop (S fuel) st (child cmd (bad :: rest)) =
  weather_loop fuel st (child cmd rest).
Proof.
  intros Hbad Hst. rewrite weather_loop_eq, Hst.
  cbn [readline child mode stdout cmdline eq_str andb]. unfold truthy. cbn [content].
  rewrite Hbad. destruct (String.eqb bad EmptyString); reflexivity.
Qed.

(** A malformed line, then a line with both fields: the readings are
    returned, and at a humidity of 100 the dewpoint handed on is above the
    temperature. *)
Lemma get_values_example :
  exists w',
    get_values
      (fun _ => [not_json; line "{'humidity': 100, 'temperature_C': 18.0}"]) 2 w0 =
    Ok (Some {| tempC := 18%float; tempF := Calc.CtoF 18%float; rh := 100%float;
                dewC := 18.000000000000004%float;
                dewF := Calc.CtoF 18.000000000000004%float |}, w').
Proof. eexists. vm_compute. reflexivity. Qed.

(** An ordinary reading, 20.0 degrees at a humidity of 50, in a world whose
    library gives the logarithm of 0.5: the dewpoint handed on is
    9.254294282076941. *)
Lemma get_values_ordinary_reading :
  exists values w',
    get_values (fun _ => [line "{'humidity': 50, 'temperature_C': 20.0}"]) 1 w0 =
    Ok (Some values, w')
    /\ tempC values = 20%float /\ rh values = 50%float
    /\ dewC values = 9.254294282076941%float.
Proof. eexists. eexists. repeat split; vm_compute; reflexivity. Qed.

End Weather.

(* ===================================================================== *)
(** * Unit conversion *)
(* ===================================================================== *)

(** [float] strips the white space of ASCII from a text, and nothing else:
    a file separator in front of the digits is refused. *)
Lemma float_of_string_white_space :
  Py.float_of_string (String (ascii_of_N 9) (String (ascii_of_N 32) "4500")) = Ok 4500%float
  /\ Py.float_of_string (String (ascii_of_N 28) "4500") = Raise ValueError
  /\ Py.float_of_string (String (ascii_of_N 31) "4500") = Raise ValueError.
Proof. repeat split; vm_compute; reflexivity. Qed.

Lemma CtoF_fixed_points :
  Calc.CtoF 0%float = 32%float /\ Calc.CtoF 100%float = 212%float.
Proof. split; vm_compute; reflexivity. Qed.

(* ===================================================================== *)
(** * More on the readers: how a call can end *)
(* ===================================================================== *)

Section ReaderOutcomes.
Import Py Rtl Reader Examples.

(** On the binary pipe the loop of [get_rtl_values] ends in one way only:
    by its condition, with the child killed and one decoded line for each
    count still missing. *)
Lemma read_loop_binary_return (cmd : list string) (fuel : nat) :
  forall (lines : list string) (n found : nat) (result r : list value) (k : bool),
    read_loop fuel n found result (child cmd lines) = Ok (r, k) ->
    k = true /\ List.length r = (List.length result + (n - found))%nat.
Proof.
  induction fuel as [| fuel IH]; intros lines n found result r k H.
  - rewrite read_loop_eq in H. destruct (Nat.ltb_spec found n); [discriminate H |].
    injection H as <- <-. split; [reflexivity | lia].
  - destruct (Nat.ltb_spec found n) as [Hlt | Hge].
    + destruct lines as [| l rest].
      * rewrite read_loop_end_of_stream in H by exact Hlt. now apply IH in H.
      * rewrite read_loop_line in H by exact Hlt.
        destruct (String.eqb l EmptyString); [now apply IH in H |].
        destruct (Json.loads l) as [d | e | |]; try discriminate H.
        -- apply IH in H as [-> H]. split; [reflexivity |].
           rewrite H, length_app. cbn [List.length]. lia.
        -- destruct e; try discriminate H. now apply IH in H.
    + rewrite read_loop_complete in H by lia. injection H as <- <-.
      split; [reflexivity | lia].
Qed.

(** On lines that are all empty, decoded or malformed the loop does not
    leave the model. *)
Lemma read_loop_readable (cmd : list string) (fuel : nat) :
  forall (lines : list string) (n found : nat) (result : list value),
    forallb readable lines = true ->
    read_loop fuel n found result (child cmd lines) <> Beyond.
Proof.
  induction fuel as [| fuel IH]; intros lines n found result Hr.
  - rewrite read_loop_eq. destruct (found <? n)%nat; discriminate.
  - destruct (Nat.ltb_spec found n) as [Hlt | Hge].
    + destruct lines as [| l rest].
      * rewrite read_loop_end_of_stream by exact Hlt. now apply IH.
      * cbn [forallb] in Hr. apply andb_true_iff in Hr as [Hl Hrest].
        rewrite read_loop_line by exact Hlt. unfold readable in Hl.
        destruct (String.eqb l EmptyString); [now apply IH |].
        cbn [orb] in Hl.
        destruct (Json.loads l) as [d | e | |]; try discriminate Hl.
        -- now apply IH.
        -- destruct e; try discriminate Hl. now apply IH.
    + rewrite read_loop_complete by lia. discriminate.
Qed.

(** X1. Once the decoder child is running, the read loop of
    [get_rtl_values] ends in one way only: by its condition, with the child
    killed and exactly as many decoded messages as there are required
    identifiers. On the binary pipe the [break] at the end of the stream is
    never taken, so no shorter list is returned, and no [ValueError] of
    [json.loads] leaves the loop. Otherwise the loop is still reading, or one
    of the lines is outside the modelled fragment (it is not ASCII, or it is
    nested so deep that [json.loads] leaves by an error that is not a
    [ValueError]). *)
Theorem read_loop_outcomes (cmd : list string) (lines : list string) (fuel n : nat) :
  (exists r,
     read_loop fuel n 0 [] (child cmd lines) = Ok (r, true)
     /\ List.length r = n)
  \/ read_loop fuel n 0 [] (child cmd lines) = OutOfFuel
  \/ (read_loop fuel n 0 [] (child cmd lines) = Beyond
      /\ forallb readable lines = false).
Proof.
  pose proof (read_loop_never_raises fuel n 0 [] (child cmd lines)) as Hn.
  pose proof (read_loop_readable cmd fuel lines n 0 []) as Hb.
  destruct (read_loop fuel n 0 [] (child cmd lines)) as [[r k] | e | |] eqn:E.
  - apply read_loop_binary_return in E as [-> Hlen].
    left. exists r. split; [reflexivity |]. cbn in Hlen. lia.
  - now destruct (Hn e).
  - right. right. split; [reflexivity |].
    destruct (forallb readable lines); [now destruct Hb | reflexivity].
  - right. now left.
Qed.

Lemma weather_loop_binary_return (cmd : list string) (fuel : nat) :
  forall (lines : list string) (st st' : weather_state) (k : bool),
    weather_loop fuel st (child cmd lines) = Ok (st', k) ->
    k = true /\ foundH st' = true /\ foundT st' = true.
Proof.
  induction fuel as [| fuel IH]; intros lines st st' k H; rewrite weather_loop_eq in H.
  - destruct (foundH st) eqn:Eh, (foundT st) eqn:Et; cbn in H; try discriminate H.
    injection H as <- <-. auto.
  - destruct (negb (foundH st) || negb (foundT st)) eqn:Ec.
    + destruct lines as [| l rest].
      * cbn in H. now apply IH in H.
      * cbn [readline child mode stdout cmdline eq_str andb] in H.
        unfold truthy in H. cbn [content] in H.
        fold (child cmd rest) in H.
        destruct (negb (String.eqb l EmptyString)); [| now apply IH in H].
        destruct (Json.loads l) as [d | e | |]; try discriminate H.
        -- destruct (weather_step st d) as [st1 | e | |]; try discriminate H.
           cbn [obind] in H. now apply IH in H.
        -- destruct e; try discriminate H. now apply IH in H.
    + injection H as <- <-.
      destruct (foundH st), (foundT st); try discriminate Ec. auto.
Qed.

(** What a return of [get_values] looks like. *)
Lemma get_values_shape
    (popen : spawner) (fuel : nat) (w w' : world) (r : option readings) :
  get_values popen fuel w = Ok (r, w') ->
  w' = log [Spawn weather_command_line; Kill weather_command_line] w
  /\ exists st values,
       weather_loop fuel
         {| humidity := 0%float; temperatureC := 0%float;
            foundH := false; foundT := false |}
         (child weather_command_line (popen weather_command_line)) = Ok (st, true)
       /\ foundH st = true /\ foundT st = true
       /\ r = Some values
       /\ tempC values = temperatureC st
       /\ rh values = humidity st
       /\ Calc.dewpoint (libm w) (tempC values) (rh values) = Ok (dewC values)
       /\ tempF values = Calc.CtoF (tempC values)
       /\ dewF values = Calc.CtoF (dewC values).
Proof.
  unfold get_values, Popen.
  change {| cmdline := ?c; mode := Binary; stdout := ?l |} with (child c l).
  intros H. apply obind_Ok in H as ([st k] & Hl & H).
  destruct (weather_loop_binary_return _ _ _ _ _ _ Hl) as (-> & Hh & Ht).
  cbn [fst snd] in H. apply obind_Ok in H as (d & Hd & H).
  injection H as <- <-. split; [reflexivity |].
  exists st. eexists. split; [exact Hl |].
  cbn [tempC rh dewC tempF dewF]. auto 10.
Qed.

(** X2. [get_values] never returns [None]: when it returns, the loop has
    ended by its condition with both fields marked as found, the child was
    killed, and the result holds the temperature and the humidity of the last
    state of the loop with the values derived from them ([dewC] is the
    dewpoint of the two, [tempF] and [dewF] are the conversions of [tempC]
    and [dewC]). The [return None] after the loop is out of reach, as the
    loop cannot break. *)
Theorem get_values_returns_readings
    (popen : spawner) (fuel : nat) (w w' : world) (r : option readings) :
  get_values popen fuel w = Ok (r, w') ->
  w' = log [Spawn weather_command_line; Kill weather_command_line] w
  /\ exists st values,
       weather_loop fuel
         {| humidity := 0%float; temperatureC := 0%float;
            foundH := false; foundT := false |}
         (child weather_command_line (popen weather_command_line)) = Ok (st, true)
       /\ foundH st = true /\ foundT st = true
       /\ r = Some values
       /\ tempC values = temperatureC st
       /\ rh values = humidity st
       /\ Calc.dewpoint (libm w) (tempC values) (rh values) = Ok (dewC values)
       /\ tempF values = Calc.CtoF (tempC values)
       /\ dewF values = Calc.CtoF (dewC values).
Proof. apply get_values_shape. Qed.

(** A reading of 20.0 degrees at a humidity of 50. *)
Lemma get_values_returns_readings_witness :
  exists r w',
    get_values (fun _ => [line "{'humidity': 50, 'temperature_C': 20.0}"]) 1 w0
      = Ok (r, w')
    /\ w' = log [Spawn weather_command_line; Kill weather_command_line] w0
    /\ exists st values,
       weather_loop 1
         {| humidity := 0%float; temperatureC := 0%float;
            foundH := false; foundT := false |}
         (child weather_command_line
            [line "{'humidity': 50, 'temperature_C': 20.0}"]) = Ok (st, true)
       /\ foundH st = true /\ foundT st = true
       /\ r = Some values
       /\ tempC values = temperatureC st
       /\ rh values = humidity st
       /\ Calc.dewpoint (libm w0) (tempC values) (rh values) = Ok (dewC values)
       /\ tempF values = Calc.CtoF (tempC values)
       /\ dewF values = Calc.CtoF (dewC values).
Proof.
  destruct (get_values (fun _ => [line "{'humidity': 50, 'temperature_C': 20.0}"]) 1 w0)
    as [[r w'] | | |] eqn:E.
  - exists r, w'. split; [reflexivity |].
    exact (get_values_returns_readings _ _ _ _ _ E).
  - vm_compute in E. discriminate E.
  - vm_compute in E. discriminate E.
  - vm_compute in E. discriminate E.
Defined.

(** X3. In [get_values] a field counts as found before its value is
    converted: on a line whose humidity is text that [float] refuses, the
    humidity is marked as found with its value unchanged, and the rest of
    the line (its temperature) is not looked at. *)
Theorem weather_step_marks_before_converting
    (st : weather_state) (m : dict value) (s : string) :
  dict_get m "humidity" = Some (VStr s) ->
  float_of_string s = Raise ValueError ->
  weather_step st (VDict m) =
  Ok {| humidity := humidity st; temperatureC := temperatureC st;
        foundH := true; foundT := foundT st |}.
Proof.
  intros Hm Hs. unfold weather_step, read_field.
  cbn [contains obind]. unfold dict_mem. rewrite Hm.
  cbn [getitem obind]. rewrite Hm. cbn [obind to_float]. rewrite Hs. reflexivity.
Qed.

Lemma weather_step_marks_before_converting_witness :
  weather_step
    {| humidity := 0%float; temperatureC := 0%float; foundH := false; foundT := false |}
    (VDict [("humidity"%string, VStr "n/a"); ("temperature_C"%string, VFloat 18%float)]) =
  Ok {| humidity := 0%float; temperatureC := 0%float; foundH := true; foundT := false |}.
Proof.
  apply (weather_step_marks_before_converting
           {| humidity := 0%float; temperatureC := 0%float;
              foundH := false; foundT := false |}
           [("humidity"%string, VStr "n/a"); ("temperature_C"%string, VFloat 18%float)]
           "n/a").
  - reflexivity.
  - vm_compute. reflexivity.
Defined.

(** X4. [do_weather_reading] never changes the tags of the caller, and
    whenever it returns it has written (when there is a client) one batch of
    exactly three points, temperature, humidity and dewpoint in this order,
    each carrying the tags of the caller. *)
Theorem do_weather_reading_writes_three_points
    (popen : spawner) (fuel : nat) (influxclient : bool)
    (timestamp : string) (tags : loc) (w w2 : world) :
  do_weather_reading popen fuel influxclient timestamp tags w = Ok w2 ->
  heap w2 = heap w
  /\ exists values,
       get_values popen fuel w =
         Ok (Some values,
             log [Spawn weather_command_line; Kill weather_command_line] w)
       /\ trace w2 =
          trace w ++ [Spawn weather_command_line; Kill weather_command_line]
          ++ (if influxclient
              then [WritePoints (Expect.weather_points (heap w !! tags) timestamp values)]
              else []).
Proof.
  unfold do_weather_reading. intros H.
  apply obind_Ok in H as ([r w1] & Hg & H).
  pose proof (get_values_shape popen fuel w w1 r Hg) as (-> & _ & values & _ & _ & _ & -> & _).
  cbn [fst snd] in H. injection H as <-.
  split; [now rewrite write_points_heap |].
  exists values. split; [exact Hg |].
  unfold write_points. destruct influxclient; cbn [log trace]; [| reflexivity].
  rewrite <- app_assoc. reflexivity.
Qed.

(** A reading of 20.0 degrees at a humidity of 50. *)
Lemma do_weather_reading_writes_three_points_witness :
  exists w2,
    do_weather_reading
      (fun _ => [line "{'humidity': 50, 'temperature_C': 20.0}"]) 1 true "t" 0%nat w0
      = Ok w2
    /\ heap w2 = heap w0
    /\ exists values,
       get_values (fun _ => [line "{'humidity': 50, 'temperature_C': 20.0}"]) 1 w0 =
         Ok (Some values,
             log [Spawn weather_command_line; Kill weather_command_line] w0)
       /\ trace w2 =
          trace w0 ++ [Spawn weather_command_line; Kill weather_command_line]
          ++ [WritePoints (Expect.weather_points (heap w0 !! 0%nat) "t" values)].
Proof.
  destruct (do_weather_reading
              (fun _ => [line "{'humidity': 50, 'temperature_C': 20.0}"])
              1 true "t" 0%nat w0) as [w2 | | |] eqn:E.
  - exists w2. split; [reflexivity |].
    exact (do_weather_reading_writes_three_points _ _ _ _ _ _ _ E).
  - vm_compute in E. discriminate E.
  - vm_compute in E. discriminate E.
  - vm_compute in E. discriminate E.
Defined.

End ReaderOutcomes.

(* ===================================================================== *)
(** * More on the gas and electric extraction *)
(* ===================================================================== *)

Section Extraction.
Import Py Rtl Reader Examples.

Lemma dict_get_set {V : Type} (k k' : string) (v : V) (d : dict V) :
  dict_get (dict_set k v d) k' =
  if String.eqb k k' then Some v else dict_get d k'.
Proof.
  induction d as [| [k0 v0] d IH]; cbn [dict_set dict_get].
  - reflexivity.
  - destruct (String.eqb_spec k0 k) as [-> | Hne]; cbn [dict_get].
    + destruct (String.eqb_spec k k'); reflexivity.
    + rewrite IH. destruct (String.eqb_spec k0 k') as [-> | Hne'].
      * destruct (String.eqb_spec k k'); [congruence | reflexivity].
      * reflexivity.
Qed.

Lemma dict_mem_set {V : Type} (k k' : string) (v : V) (d : dict V) :
  dict_mem k' (dict_set k v d) = true -> k' = k \/ dict_mem k' d = true.
Proof.
  unfold dict_mem. rewrite dict_get_set.
  destruct (String.eqb_spec k k'); [left; congruence | now right].
Qed.

Lemma item_matches_configured (id : option string) (key : string) (item : value) :
  item_matches id key item = Ok true -> configured id = true.
Proof.
  unfold item_matches. destruct (configured id); [reflexivity | discriminate].
Qed.

Lemma record_reading_keys (name : string) (item : value) (d d' : dict float) (k : string) :
  record_reading name item d = Ok d' ->
  dict_mem k d' = true -> k = name \/ dict_mem k d = true.
Proof.
  unfold record_reading, try_except. intros H Hk.
  destruct (getitem item "Message") as [m | e | |]; cbn [obind] in H.
  - destruct (getitem m "Consumption") as [raw | e | |]; cbn [obind] in H.
    + destruct (to_float raw) as [f | e | |]; cbn [obind] in H.
      * injection H as <-. now apply dict_mem_set in Hk.
      * destruct (existsb (exn_eqb e) [KeyError; ValueError]); [| discriminate H].
        injection H as <-. now right.
      * discriminate H.
      * discriminate H.
    + destruct (existsb (exn_eqb e) [KeyError; ValueError]); [| discriminate H].
      injection H as <-. now right.
    + discriminate H.
    + discriminate H.
  - destruct (existsb (exn_eqb e) [KeyError; ValueError]); [| discriminate H].
    injection H as <-. now right.
  - discriminate H.
  - discriminate H.
Qed.

Lemma reading_step_keys (gas electric : option string) (d d' : dict float)
    (item : value) (k : string) :
  reading_step gas electric d item = Ok d' ->
  dict_mem k d' = true ->
  dict_mem k d = true
  \/ (k = "gas"%string /\ configured gas = true)
  \/ (k = "electric"%string /\ configured electric = true).
Proof.
  unfold reading_step. intros H Hk.
  destruct (item_matches gas "EndpointID" item) as [[|] | e | |] eqn:Eg;
    cbn [obind] in H; try discriminate H.
  - apply item_matches_configured in Eg.
    destruct (record_reading_keys _ _ _ _ k H Hk); auto.
  - destruct (item_matches electric "ID" item) as [[|] | e | |] eqn:Ee;
      cbn [obind] in H; try discriminate H.
    + apply item_matches_configured in Ee.
      destruct (record_reading_keys _ _ _ _ k H Hk); auto.
    + injection H as <-. now left.
Qed.

Lemma for_items_keys (gas electric : option string) (l : list value) :
  forall (d d' : dict float) (k : string),
    for_items gas electric l d = Ok d' ->
    dict_mem k d' = true ->
    dict_mem k d = true
    \/ (k = "gas"%string /\ configured gas = true)
    \/ (k = "electric"%string /\ configured electric = true).
Proof.
  induction l as [| item l IH]; intros d d' k H Hk; cbn [for_items] in H.
  - injection H as <-. now left.
  - apply obind_Ok in H as (d1 & H1 & H).
    destruct (IH _ _ _ H Hk) as [Hd1 | Hr]; [| now right].
    exact (reading_step_keys _ _ _ _ _ _ H1 Hd1).
Qed.

(** How a return of [__get_gas_and_electric_reading] looks. *)
Lemma gas_and_electric_reading_shape
    (self : rtl) (popen : spawner) (fuel : nat)
    (gas electric : option string) (w w' : world) (d : dict float) :
  __get_gas_and_electric_reading self popen fuel gas electric w = Ok (d, w') ->
  configured gas = configured electric
  /\ (configured gas = false -> d = [] /\ w' = w)
  /\ (forall k, dict_mem k d = true -> k = "gas"%string \/ k = "electric"%string).
Proof.
  unfold __get_gas_and_electric_reading. intros H.
  destruct (configured gas) eqn:Eg, (configured electric) eqn:Ee;
    cbn [List.length Nat.add Nat.eqb Nat.ltb Nat.leb obind fst snd] in H.
  - split; [reflexivity |]. split; [discriminate |].
    apply obind_Ok in H as (r1 & H1 & H).
    apply obind_Ok in H as (r2 & H2 & H).
    apply obind_Ok in H1 as (x1 & _ & H1). injection H1 as <-.
    apply obind_Ok in H2 as (x2 & _ & H2). injection H2 as <-.
    cbn [fst snd] in H. apply obind_Ok in H as (d0 & Hd & H). injection H as <- <-.
    intros k Hk.
    destruct (for_items_keys _ _ _ _ _ k Hd Hk) as [H0 | [[-> _] | [-> _]]]; auto.
    discriminate H0.
  - exfalso.
    apply obind_Ok in H as (r2 & H2 & H).
    apply obind_Ok in H2 as (x2 & _ & H2). injection H2 as <-. discriminate H.
  - exfalso.
    apply obind_Ok in H as (r1 & H1 & H).
    apply obind_Ok in H1 as (x1 & _ & H1). injection H1 as <-. discriminate H.
  - injection H as <- <-. repeat split; auto. intros k Hk. discriminate Hk.
Qed.

(** X5. [__get_gas_and_electric_reading] returns a dictionary only when both
    identities are configured or neither is; with neither the dictionary is
    empty and no child was started, and in any case its keys are "gas" and
    "electric" only. *)
Theorem gas_and_electric_reading_keys
    (self : rtl) (popen : spawner) (fuel : nat)
    (gas electric : option string) (w w' : world) (d : dict float) :
  __get_gas_and_electric_reading self popen fuel gas electric w = Ok (d, w') ->
  configured gas = configured electric
  /\ (configured gas = false -> d = [] /\ w' = w)
  /\ (forall k, dict_mem k d = true -> k = "gas"%string \/ k = "electric"%string).
Proof. apply gas_and_electric_reading_shape. Qed.

Lemma gas_and_electric_reading_keys_witness :
  configured (Some "456"%string) = configured (Some "123"%string)
  /\ (configured (Some "456"%string) = false ->
      [("electric"%string, 45%float); ("gas"%string, 12.34%float)] = []
      /\ log [Spawn (command_line (meter (Some "123") (Some "456") None) "scm" ["123"]);
              Kill (command_line (meter (Some "123") (Some "456") None) "scm" ["123"]);
              Spawn (command_line (meter (Some "123") (Some "456") None) "scm+" ["456"]);
              Kill (command_line (meter (Some "123") (Some "456") None) "scm+" ["456"])] w0
         = w0)
  /\ (forall k,
        dict_mem k [("electric"%string, 45%float); ("gas"%string, 12.34%float)] = true ->
        k = "gas"%string \/ k = "electric"%string).
Proof.
  apply (gas_and_electric_reading_keys (meter (Some "123") (Some "456") None)
           (decoder [electric_123] [gas_456] []) 1 (Some "456"%string) (Some "123"%string) w0).
  vm_compute. reflexivity.
Defined.

(** The test of the [if] and of the [elif] on a message whose [Message] is
    an object. *)
Lemma item_matches_object (id : string) (key : string) (top m : dict value) :
  id <> EmptyString ->
  dict_get top "Message" = Some (VDict m) ->
  item_matches (Some id) key (VDict top) =
  match dict_get m key with
  | None => Ok false
  | Some x => (let! sx := str x in Ok (String.eqb sx id))%outcome
  end.
Proof.
  intros Hne Ht. unfold item_matches.
  assert (Hc : configured (Some id) = true).
  { cbn. destruct (String.eqb_spec id EmptyString); [contradiction | reflexivity]. }
  rewrite Hc. cbn [getitem]. rewrite Ht. cbn [obind contains]. unfold dict_mem.
  destruct (dict_get m key) as [x |] eqn:Ek; cbn [obind getitem]; [| reflexivity].
  rewrite Ek. reflexivity.
Qed.

Lemma record_reading_object (name : string) (top m : dict value) (c : value)
    (f : float) (d : dict float) :
  dict_get top "Message" = Some (VDict m) ->
  dict_get m "Consumption" = Some c ->
  to_float c = Ok f ->
  record_reading name (VDict top) d = Ok (dict_set name (f / 100)%float d).
Proof.
  intros Ht Hc Hf. unfold record_reading. cbn [getitem]. rewrite Ht.
  cbn [obind getitem]. rewrite Hc. cbn [obind]. rewrite Hf. reflexivity.
Qed.

(** X6. The gas test comes first: a message that carries both the
    configured gas identifier (as [EndpointID]) and the configured electric
    identifier (as [ID]) is recorded as a gas reading only. *)
Theorem gas_takes_precedence
    (gas electric : string) (top m : dict value) (c : value) (f : float)
    (d : dict float) :
  gas <> EmptyString ->
  dict_get top "Message" = Some (VDict m) ->
  dict_get m "EndpointID" = Some (VStr gas) ->
  dict_get m "ID" = Some (VStr electric) ->
  dict_get m "Consumption" = Some c ->
  to_float c = Ok f ->
  reading_step (Some gas) (Some electric) d (VDict top) =
  Ok (dict_set "gas" (f / 100)%float d).
Proof.
  intros Hne Ht Hg He Hc Hf. unfold reading_step.
  rewrite (item_matches_object gas "EndpointID" top m Hne Ht), Hg.
  cbn [str obind]. rewrite String.eqb_refl.
  exact (record_reading_object "gas" top m c f d Ht Hc Hf).
Qed.

Lemma gas_takes_precedence_witness :
  reading_step (Some "456"%string) (Some "123"%string) []
    (VDict [("Message"%string,
             VDict [("EndpointID"%string, VStr "456"); ("ID"%string, VStr "123");
                    ("Consumption"%string, VInt 4500)])]) =
  Ok (dict_set "gas" (4500 / 100)%float []).
Proof.
  apply (gas_takes_precedence "456" "123"
           [("Message"%string,
             VDict [("EndpointID"%string, VStr "456"); ("ID"%string, VStr "123");
                    ("Consumption"%string, VInt 4500)])]
           [("EndpointID"%string, VStr "456"); ("ID"%string, VStr "123");
            ("Consumption"%string, VInt 4500)]
           (VInt 4500) 4500%float []).
  - discriminate.
  - reflexivity.
  - reflexivity.
  - reflexivity.
  - reflexivity.
  - vm_compute. reflexivity.
Defined.

(** X7. The identifier of a message is compared as text: an electric
    message without [EndpointID] whose [ID] is any scalar [x] is recorded
    exactly when [str(x)] is the configured identity, so the JSON number 123
    and the JSON string "123" both match the identity "123". *)
Theorem identifier_compared_as_text
    (gas : option string) (electric : string) (top m : dict value)
    (x c : value) (sx : string) (f : float) (d : dict float) :
  electric <> EmptyString ->
  dict_get top "Message" = Some (VDict m) ->
  dict_get m "EndpointID" = None ->
  dict_get m "ID" = Some x ->
  str x = Ok sx ->
  dict_get m "Consumption" = Some c ->
  to_float c = Ok f ->
  reading_step gas (Some electric) d (VDict top) =
  Ok (if String.eqb sx electric then dict_set "electric" (f / 100)%float d else d).
Proof.
  intros Hne Ht Hg Hx Hs Hc Hf. unfold reading_step.
  assert (Hgas : item_matches gas "EndpointID" (VDict top) = Ok false).
  { destruct gas as [g |]; [| reflexivity].
    destruct (String.eqb_spec g EmptyString) as [-> | Hg0]; [reflexivity |].
    now rewrite (item_matches_object g "EndpointID" top m Hg0 Ht), Hg. }
  rewrite Hgas. cbn [obind].
  rewrite (item_matches_object electric "ID" top m Hne Ht), Hx, Hs.
  cbn [obind]. destruct (String.eqb sx electric); [| reflexivity].
  exact (record_reading_object "electric" top m c f d Ht Hc Hf).
Qed.

Lemma identifier_compared_as_text_witness :
  reading_step (Some "456"%string) (Some "123"%string) []
    (VDict [("Message"%string,
             VDict [("ID"%string, VInt 123); ("Consumption"%string, VInt 4500)])]) =
  Ok (if String.eqb "123" "123" then dict_set "electric" (4500 / 100)%float [] else []).
Proof.
  apply (identifier_compared_as_text (Some "456"%string) "123"
           [("Message"%string,
             VDict [("ID"%string, VInt 123); ("Consumption"%string, VInt 4500)])]
           [("ID"%string, VInt 123); ("Consumption"%string, VInt 4500)]
           (VInt 123) (VInt 4500) "123" 4500%float []).
  - discriminate.
  - reflexivity.
  - reflexivity.
  - reflexivity.
  - vm_compute. reflexivity.
  - reflexivity.
  - vm_compute. reflexivity.
Defined.

(** X8. [get_electric_reading] and [get_gas_reading] never return a
    reading: with the identity absent they return [None], otherwise the call
    ends by an exception or is still reading. *)
Theorem single_meter_getters_return_no_reading
    (self : rtl) (popen : spawner) (fuel : nat) (w w' : world) (x : float) :
  get_electric_reading self popen fuel w <> Ok (Some x, w')
  /\ get_gas_reading self popen fuel w <> Ok (Some x, w').
Proof.
  split.
  - unfold get_electric_reading. destruct (electric_meter_id self) as [id |];
      [| discriminate].
    intros H. apply obind_Ok in H as ([d w1] & Hg & H).
    apply gas_and_electric_reading_shape in Hg as (_ & Hd & _).
    destruct (Hd eq_refl) as [-> _].
    cbn in H. discriminate H.
  - unfold get_gas_reading. destruct (gas_meter_id self) as [id |];
      [| discriminate].
    intros H. apply obind_Ok in H as ([d w1] & Hg & H).
    apply gas_and_electric_reading_shape in Hg as (Hc & Hd & _).
    destruct (Hd Hc) as [-> _].
    cbn in H. discriminate H.
Qed.

(** X9. With neither identity configured (absent or empty)
    [do_gas_electric_meter_reading] starts no child and builds no point, but
    it is not silent: with a client it hands the sink an empty series. *)
Theorem unconfigured_gas_electric_writes_empty_series
    (self : rtl) (popen : spawner) (fuel : nat) (influxclient : bool)
    (timestamp : string) (tags : loc) (w : world) :
  configured (gas_meter_id self) = false ->
  configured (electric_meter_id self) = false ->
  do_gas_electric_meter_reading self popen fuel influxclient timestamp tags w =
  Ok (if influxclient then log [WritePoints []] w else w).
Proof.
  intros Hg He.
  now rewrite (do_gas_electric_unconfigured self popen fuel influxclient
                 timestamp tags w Hg He).
Qed.

Lemma unconfigured_gas_electric_writes_empty_series_witness :
  do_gas_electric_meter_reading (meter None (Some EmptyString) (Some "789"))
    (decoder [electric_123] [gas_456] [water_789]) 1 true "t" 0%nat w0 =
  Ok (log [WritePoints []] w0).
Proof.
  apply (unconfigured_gas_electric_writes_empty_series
           (meter None (Some EmptyString) (Some "789"))
           (decoder [electric_123] [gas_456] [water_789]) 1 true "t" 0%nat w0).
  - reflexivity.
  - reflexivity.
Defined.

End Extraction.

(* ===================================================================== *)
(** * The electric reading of the example *)
(* ===================================================================== *)

Section ElectricReading.
Import Py Rtl Reader Examples Expect.

(** A line that decodes is not empty. *)
Lemma loads_not_empty (l : string) (d : value) :
  Json.loads l = Ok d -> String.eqb l EmptyString = false.
Proof.
  intros H. destruct l; [vm_compute in H; discriminate H | reflexivity].
Qed.

(** With one identifier asked for, the loop passes over the empty and the
    malformed lines and returns the first line that decodes. *)
Lemma read_loop_first_decoded (cmd : list string) (l : string) (rest : list string)
    (d : value) :
  Json.loads l = Ok d ->
  forall (pre : list string) (fuel : nat) (result : list value),
    forallb skipped pre = true ->
    (List.length pre < fuel)%nat ->
    read_loop fuel 1 0 result (child cmd (pre ++ l :: rest)) =
    Ok (result ++ [d], true).
Proof.
  intros Hl. induction pre as [| a pre IH]; intros fuel result Hs Hf;
    (destruct fuel as [| fuel]; [cbn [List.length] in Hf; lia |]).
  - cbn [app]. rewrite read_loop_line by lia.
    rewrite (loads_not_empty l d Hl), Hl.
    now rewrite read_loop_complete by lia.
  - cbn [app forallb List.length] in *. apply andb_true_iff in Hs as [Ha Hs].
    rewrite read_loop_line by lia. unfold skipped in Ha.
    destruct (String.eqb a EmptyString); [apply IH; [exact Hs | lia] |].
    cbn [orb] in Ha.
    destruct (Json.loads a) as [x | e | |]; try discriminate Ha.
    destruct e; try discriminate Ha. apply IH; [exact Hs | lia].
Qed.

Lemma item_matches_other (id key : string) (top m : dict value) :
  id <> EmptyString ->
  dict_get top "Message" = Some (VDict m) ->
  names_other id key m ->
  item_matches (Some id) key (VDict top) = Ok false.
Proof.
  intros Hne Ht Hn. rewrite (item_matches_object id key top m Hne Ht).
  unfold names_other in Hn. destruct (dict_get m key) as [x |]; [| reflexivity].
  destruct Hn as (sx & -> & Hsx). cbn [obind].
  destruct (String.eqb_spec sx id); [contradiction | reflexivity].
Qed.

(** The loop over the items on a message that is a [gas_message]. *)
Lemma reading_step_gas_message (gas electric : string) (top m : dict value)
    (r : option float) (d : dict float) :
  gas <> EmptyString -> electric <> EmptyString ->
  dict_get top "Message" = Some (VDict m) ->
  gas_message gas electric m r ->
  reading_step (Some gas) (Some electric) d (VDict top) =
  Ok (match r with Some v => dict_set "gas" v d | None => d end).
Proof.
  intros Hg He Ht Hm. unfold reading_step.
  destruct Hm as [x c f Hx Hs Hc Hf | x Hx Hs Hc | x c Hx Hs Hc Hf | Hn1 Hn2].
  - rewrite (item_matches_object gas "EndpointID" top m Hg Ht), Hx, Hs.
    cbn [obind]. rewrite String.eqb_refl.
    exact (record_reading_object "gas" top m c f d Ht Hc Hf).
  - rewrite (item_matches_object gas "EndpointID" top m Hg Ht), Hx, Hs.
    cbn [obind]. rewrite String.eqb_refl.
    unfold record_reading. cbn [getitem]. rewrite Ht. cbn [obind getitem].
    rewrite Hc. reflexivity.
  - rewrite (item_matches_object gas "EndpointID" top m Hg Ht), Hx, Hs.
    cbn [obind]. rewrite String.eqb_refl.
    unfold record_reading. cbn [getitem]. rewrite Ht. cbn [obind getitem].
    rewrite Hc. cbn [obind]. rewrite Hf. reflexivity.
  - rewrite (item_matches_other gas "EndpointID" top m Hg Ht Hn1). cbn [obind].
    rewrite (item_matches_other electric "ID" top m He Ht Hn2). reflexivity.
Qed.

(** C6 (as amended). When the first line of the decoder output under
    message type [scm] that is neither empty nor malformed is
    [{"Message":{"ID":"123","Consumption":"4500"}}], the electric identity is
    ["123"], and a gas identity is configured too whose [scm+] run gives, as
    its first line that decodes, an object with a [Message] object that the
    loop goes on from (a reading of that gas meter, or a message naming
    neither meter), the extractor returns the electric reading 45.0
    (identifiers compared as strings, consumption divided by 100), next to
    the gas reading if the message holds one. *)
Theorem electric_reading_of_4500
    (self : rtl) (popen : spawner) (fuel : nat) (w : world)
    (gas : string) (pre1 rest1 pre2 rest2 : list string) (gas_line : string)
    (top m : dict value) (r : option float) :
  electric_meter_id self = Some "123"%string ->
  gas_meter_id self = Some gas ->
  gas <> EmptyString ->
  popen (command_line self "scm" ["123"%string]) = pre1 ++ electric_123 :: rest1 ->
  forallb skipped pre1 = true ->
  popen (command_line self "scm+" [gas]) = pre2 ++ gas_line :: rest2 ->
  forallb skipped pre2 = true ->
  Json.loads gas_line = Ok (VDict top) ->
  dict_get top "Message" = Some (VDict m) ->
  gas_message gas "123" m r ->
  (List.length pre1 < fuel)%nat ->
  (List.length pre2 < fuel)%nat ->
  get_gas_and_electric_reading self popen fuel w =
  Ok (readings_of 45%float r,
      log [Spawn (command_line self "scm+" [gas]);
           Kill (command_line self "scm+" [gas])]
        (log [Spawn (command_line self "scm" ["123"%string]);
              Kill (command_line self "scm" ["123"%string])] w)).
Proof.
  intros He Hg Hne Hp1 Hs1 Hp2 Hs2 Hl Ht Hm Hf1 Hf2.
  assert (Hcg : configured (Some gas) = true).
  { cbn. destruct (String.eqb_spec gas EmptyString); [contradiction | reflexivity]. }
  unfold get_gas_and_electric_reading, __get_gas_and_electric_reading.
  rewrite He, Hg, Hcg.
  change (configured (Some "123"%string)) with true. cbv iota.
  cbn [str_id List.length Nat.add Nat.eqb Nat.ltb Nat.leb].
  unfold get_rtl_values, Popen. rewrite Hp1, Hp2.
  change {| cmdline := ?c; mode := Binary; stdout := ?l |} with (child c l).
  cbn [List.length].
  rewrite (read_loop_first_decoded _ electric_123 rest1 (msg "ID" "123" "4500"))
    by (try assumption; vm_compute; reflexivity).
  cbn [obind fst snd app].
  rewrite (read_loop_first_decoded _ gas_line rest2 (VDict top) Hl)
    by assumption.
  cbn [obind fst snd app for_items].
  rewrite reading_step_electric_123. cbn [obind].
  rewrite (reading_step_gas_message gas "123" top m r _ Hne ltac:(discriminate) Ht Hm).
  cbn [obind]. destruct r; reflexivity.
Qed.

(** The electric line after an empty line and a malformed one, and a gas
    message as the decoder prints it: the identifier and the consumption are
    numbers, and other fields surround them. *)
Lemma electric_reading_of_4500_witness :
  get_gas_and_electric_reading (meter (Some "123") (Some "456") None)
    (decoder
       [EmptyString; not_json; electric_123]
       [line "{'Time':'2021-03-04T05:06:07Z','Offset':0,'Length':0,'Type':'SCM+','Message':{'FrameSync':5795,'ProtocolID':30,'EndpointType':156,'EndpointID':456,'Consumption':1234,'Tamper':0,'PacketCRC':51137}}"]
       [])
    3 w0 =
  Ok ([("electric"%string, 45%float); ("gas"%string, 12.34%float)],
      log [Spawn (command_line (meter (Some "123") (Some "456") None) "scm+" ["456"%string]);
           Kill (command_line (meter (Some "123") (Some "456") None) "scm+" ["456"%string])]
        (log [Spawn (command_line (meter (Some "123") (Some "456") None) "scm" ["123"%string]);
              Kill (command_line (meter (Some "123") (Some "456") None) "scm" ["123"%string])]
           w0)).
Proof.
  apply (electric_reading_of_4500 (meter (Some "123") (Some "456") None)
           (decoder
              [EmptyString; not_json; electric_123]
              [line "{'Time':'2021-03-04T05:06:07Z','Offset':0,'Length':0,'Type':'SCM+','Message':{'FrameSync':5795,'ProtocolID':30,'EndpointType':156,'EndpointID':456,'Consumption':1234,'Tamper':0,'PacketCRC':51137}}"]
              [])
           3 w0 "456" [EmptyString; not_json] [] [] []
           (line "{'Time':'2021-03-04T05:06:07Z','Offset':0,'Length':0,'Type':'SCM+','Message':{'FrameSync':5795,'ProtocolID':30,'EndpointType':156,'EndpointID':456,'Consumption':1234,'Tamper':0,'PacketCRC':51137}}")
           [("Time"%string, VStr "2021-03-04T05:06:07Z"); ("Offset"%string, VInt 0);
            ("Length"%string, VInt 0); ("Type"%string, VStr "SCM+");
            ("Message"%string,
             VDict [("FrameSync"%string, VInt 5795); ("ProtocolID"%string, VInt 30);
                    ("EndpointType"%string, VInt 156); ("EndpointID"%string, VInt 456);
                    ("Consumption"%string, VInt 1234); ("Tamper"%string, VInt 0);
                    ("PacketCRC"%string, VInt 51137)])]
           [("FrameSync"%string, VInt 5795); ("ProtocolID"%string, VInt 30);
            ("EndpointType"%string, VInt 156); ("EndpointID"%string, VInt 456);
            ("Consumption"%string, VInt 1234); ("Tamper"%string, VInt 0);
            ("PacketCRC"%string, VInt 51137)]
           (Some 12.34%float)).
  - reflexivity.
  - reflexivity.
  - discriminate.
  - reflexivity.
  - vm_compute. reflexivity.
  - reflexivity.
  - reflexivity.
  - vm_compute. reflexivity.
  - reflexivity.
  - replace 12.34%float with (1234 / 100)%float by (vm_compute; reflexivity).
    apply (gas_reading "456" "123" _ (VInt 456) (VInt 1234) 1234%float).
    + reflexivity.
    + vm_compute. reflexivity.
    + reflexivity.
    + vm_compute. reflexivity.
  - cbn. lia.
  - cbn. lia.
Defined.

End ElectricReading.

(* ===================================================================== *)
(** * More on the points handed to the sink *)
(* ===================================================================== *)

Section Points.
Import Py Rtl Reader Examples Expect.

(** [get_water_reading] once the decoder has answered with a line that
    decodes to [item]: only [item] decides. *)
Lemma get_water_reading_first_item
    (self : rtl) (popen : spawner) (fuel : nat) (w : world)
    (id l : string) (rest : list string) (item : value) :
  water_meter_id self = Some id ->
  popen (command_line self "r900bcd" [id]) = l :: rest ->
  Json.loads l = Ok item ->
  get_water_reading self popen (S fuel) w =
  (let! reading :=
     try_except
       (let! m := getitem item "Message" in
        let! raw := getitem m "Consumption" in
        let! f := to_float raw in
        Ok (Some (f / 100)%float))
       [IndexError; KeyError; ValueError]
       (fun _ => Ok None) in
   Ok (reading,
       log [Spawn (command_line self "r900bcd" [id]);
            Kill (command_line self "r900bcd" [id])] w))%outcome.
Proof.
  intros Hid Hp Hl. unfold get_water_reading, get_rtl_values, Popen.
  rewrite Hid. cbn [str_id]. rewrite Hp.
  change {| cmdline := ?c; mode := Binary; stdout := ?x |} with (child c x).
  rewrite read_loop_line by (cbn; lia). rewrite Hl.
  assert (Hne : String.eqb l EmptyString = false).
  { destruct l; [vm_compute in Hl; discriminate Hl | reflexivity]. }
  rewrite Hne. rewrite read_loop_complete by (cbn; lia).
  reflexivity.
Qed.

(** X10. The water reading is taken from the first decoded message whatever
    meter it names: no identifier of the message is compared with the
    configured water identity. Its value is the consumption divided by
    100. *)
Theorem water_reading_ignores_identifier
    (self : rtl) (popen : spawner) (fuel : nat) (w : world)
    (id l : string) (rest : list string) (top m : dict value)
    (c : value) (f : float) :
  water_meter_id self = Some id ->
  popen (command_line self "r900bcd" [id]) = l :: rest ->
  Json.loads l = Ok (VDict top) ->
  dict_get top "Message" = Some (VDict m) ->
  dict_get m "Consumption" = Some c ->
  to_float c = Ok f ->
  get_water_reading self popen (S fuel) w =
  Ok (Some (f / 100)%float,
      log [Spawn (command_line self "r900bcd" [id]);
           Kill (command_line self "r900bcd" [id])] w).
Proof.
  intros Hid Hp Hl Ht Hc Hf.
  rewrite (get_water_reading_first_item self popen fuel w id l rest _ Hid Hp Hl).
  cbn [getitem]. rewrite Ht. cbn [obind getitem]. rewrite Hc.
  cbn [obind]. rewrite Hf. reflexivity.
Qed.

Lemma water_reading_ignores_identifier_witness :
  get_water_reading (meter None None (Some "789"))
    (decoder [] [] [electric_999]) 1 w0 =
  Ok (Some (4500 / 100)%float,
      log [Spawn (command_line (meter None None (Some "789")) "r900bcd" ["789"]);
           Kill (command_line (meter None None (Some "789")) "r900bcd" ["789"])] w0).
Proof.
  apply (water_reading_ignores_identifier (meter None None (Some "789"))
           (decoder [] [] [electric_999]) 0 w0 "789" electric_999 []
           [("Message"%string,
             VDict [("ID"%string, VStr "999"); ("Consumption"%string, VStr "4500")])]
           [("ID"%string, VStr "999"); ("Consumption"%string, VStr "4500")]
           (VStr "4500") 4500%float).
  - reflexivity.
  - reflexivity.
  - vm_compute. reflexivity.
  - reflexivity.
  - reflexivity.
  - vm_compute. reflexivity.
Defined.

(** X11. When the first decoded message has no [Message], or no
    [Consumption], or a consumption that [float] refuses with [ValueError]
    (the extraction leaves through [KeyError] or [ValueError]),
    [do_water_meter_reading] sends nothing and leaves the tags of the caller
    as they are: all it has done is start and kill the child. *)
Theorem water_failure_sends_nothing
    (self : rtl) (popen : spawner) (fuel : nat) (influxclient : bool)
    (timestamp : string) (tags : loc) (w : world)
    (id l : string) (rest : list string) (item : value) (e : exn) :
  water_meter_id self = Some id ->
  popen (command_line self "r900bcd" [id]) = l :: rest ->
  Json.loads l = Ok item ->
  (let! m := getitem item "Message" in
   let! raw := getitem m "Consumption" in
   to_float raw)%outcome = Raise e ->
  e = KeyError \/ e = ValueError ->
  do_water_meter_reading self popen (S fuel) influxclient timestamp tags w =
  Ok (log [Spawn (command_line self "r900bcd" [id]);
           Kill (command_line self "r900bcd" [id])] w).
Proof.
  intros Hid Hp Hl He Hk. unfold do_water_meter_reading.
  rewrite (get_water_reading_first_item self popen fuel w id l rest item Hid Hp Hl).
  assert (Hb : (let! m := getitem item "Message" in
                let! raw := getitem m "Consumption" in
                let! f := to_float raw in
                Ok (Some (f / 100)%float))%outcome = Raise e).
  { destruct (getitem item "Message") as [m | e0 | |]; cbn [obind] in He |- *;
      try discriminate He; [| now injection He as ->].
    destruct (getitem m "Consumption") as [raw | e0 | |]; cbn [obind] in He |- *;
      try discriminate He; [| now injection He as ->].
    rewrite He. reflexivity. }
  rewrite Hb. unfold try_except.
  destruct Hk as [-> | ->]; reflexivity.
Qed.

Lemma water_failure_sends_nothing_witness :
  do_water_meter_reading (meter None None (Some "789"))
    (decoder [] [] [line "{'Message':{'ID':'789','Consumption':'abc'}}"])
    1 true "t" 0%nat w0 =
  Ok (log [Spawn (command_line (meter None None (Some "789")) "r900bcd" ["789"]);
           Kill (command_line (meter None None (Some "789")) "r900bcd" ["789"])] w0).
Proof.
  apply (water_failure_sends_nothing (meter None None (Some "789"))
           (decoder [] [] [line "{'Message':{'ID':'789','Consumption':'abc'}}"])
           0 true "t" 0%nat w0 "789"
           (line "{'Message':{'ID':'789','Consumption':'abc'}}") []
           (VDict [("Message"%string,
                    VDict [("ID"%string, VStr "789"); ("Consumption"%string, VStr "abc")])])
           ValueError).
  - reflexivity.
  - reflexivity.
  - vm_compute. reflexivity.
  - vm_compute. reflexivity.
  - now right.
Defined.

(** X12. When the water reading succeeds, [do_water_meter_reading] hands
    the sink one batch of exactly one point, named "water", with the reading
    as its only field and the tags of the caller completed by [meterid],
    "hcf" and version 1; without a client nothing is sent, yet the tags of
    the caller are completed all the same. *)
Theorem water_success_sends_one_point
    (self : rtl) (popen : spawner) (fuel : nat) (influxclient : bool)
    (timestamp : string) (tags : loc) (w w1 : world) (t : dict tagval)
    (reading : float) :
  get_water_reading self popen fuel w = Ok (Some reading, w1) ->
  heap w !! tags = Some t ->
  exists w2,
    do_water_meter_reading self popen fuel influxclient timestamp tags w = Ok w2
    /\ heap w2 !! tags = Some (meter_tags (water_meter_id self) "hcf" t)
    /\ trace w2 =
       trace w1 ++
       (if influxclient
        then [WritePoints [meter_point "water" (water_meter_id self) "hcf" t
                             timestamp reading]]
        else []).
Proof.
  intros Hr Ht. unfold do_water_meter_reading. rewrite Hr. cbn [obind fst snd].
  pose proof (get_water_reading_heap _ _ _ _ _ Hr) as Hh. cbn [snd] in Hh.
  rewrite (set_meter_tags_eq tags (water_meter_id self) "hcf" w1 t)
    by now rewrite Hh.
  cbn [obind]. eexists. split; [reflexivity |].
  rewrite write_points_heap. cbn [store heap]. rewrite lookup_insert_eq.
  split; [reflexivity |].
  unfold write_points. destruct influxclient; cbn [log trace store];
    [| now rewrite app_nil_r].
  unfold send. cbn [map measurement Rtl.tags time fields heap store].
  rewrite lookup_insert_eq. reflexivity.
Qed.

Lemma water_success_sends_one_point_witness :
  exists w2,
    do_water_meter_reading (meter None None (Some "789"))
      (decoder [] [] [water_789]) 1 false "t" 0%nat w0 = Ok w2
    /\ heap w2 !! 0%nat =
       Some (meter_tags (Some "789"%string) "hcf" [("hostname"%string, TagStr "pi")])
    /\ trace w2 =
       trace (log [Spawn (command_line (meter None None (Some "789")) "r900bcd" ["789"]);
                   Kill (command_line (meter None None (Some "789")) "r900bcd" ["789"])] w0)
       ++ [].
Proof.
  apply (water_success_sends_one_point (meter None None (Some "789"))
           (decoder [] [] [water_789]) 1 false "t" 0%nat w0 _
           [("hostname"%string, TagStr "pi")] (99 / 100)%float).
  - vm_compute. reflexivity.
  - reflexivity.
Defined.

(** One branch of [do_gas_electric_meter_reading] when the reading is
    there: the point refers to a new dict, which holds the completed copy of
    the tags; every other dict is as it was. *)
Lemma add_point_present (name : string) (id : option string) (units : string)
    (readings : dict float) (timestamp : string) (tags : loc)
    (st : list point * world) (t : dict tagval) (reading : float) :
  dict_get readings name = Some reading ->
  heap (snd st) !! tags = Some t ->
  exists l' w',
    add_point name id units readings timestamp tags st =
      Ok (fst st ++ [{| measurement := name; Rtl.tags := l'; time := timestamp;
                        fields := [("reading"%string, reading)] |}], w')
    /\ heap (snd st) !! l' = None
    /\ trace w' = trace (snd st)
    /\ heap w' !! l' = Some (meter_tags id units t)
    /\ forall l, l <> l' -> heap w' !! l = heap (snd st) !! l.
Proof.
  intros Hr Ht. unfold add_point, copy. rewrite Hr, Ht. cbn [obind fst snd].
  set (l' := fresh (dom (heap (snd st)))).
  assert (Hfresh : heap (snd st) !! l' = None).
  { apply not_elem_of_dom. apply is_fresh. }
  destruct (set_meter_tags_at l' id units (store l' t (snd st)) t)
    as (w' & Hw' & Htr & Hl & Hother).
  { cbn [store heap]. apply lookup_insert_eq. }
  rewrite Hw'. cbn [obind]. exists l', w'. split; [reflexivity |].
  split; [exact Hfresh |]. split; [exact Htr |]. split; [exact Hl |].
  intros l Hne. rewrite Hother by exact Hne. cbn [store heap].
  now rewrite lookup_insert_ne by congruence.
Qed.

(** X13. Whatever readings the extraction returned,
    [do_gas_electric_meter_reading] hands the sink one batch with the gas
    point (if there is a gas reading) followed by the electric point (if
    there is an electric reading). Each point carries its own copy of the
    tags of the caller, completed with its own [meterid] and units ("ccf",
    "kwh"): neither copy shows in the other, nor in the tags of the caller. *)
Theorem gas_electric_points
    (self : rtl) (popen : spawner) (fuel : nat) (influxclient : bool)
    (timestamp : string) (tags : loc) (w w1 : world) (t : dict tagval)
    (readings : dict float) :
  get_gas_and_electric_reading self popen fuel w = Ok (readings, w1) ->
  heap w !! tags = Some t ->
  exists w2,
    do_gas_electric_meter_reading self popen fuel influxclient timestamp tags w = Ok w2
    /\ heap w2 !! tags = Some t
    /\ trace w2 =
       trace w1 ++
       (if influxclient
        then [WritePoints
                (meter_points "gas" (gas_meter_id self) "ccf" t timestamp readings
                 ++ meter_points "electric" (electric_meter_id self) "kwh" t
                      timestamp readings)]
        else []).
Proof.
  intros Hr Ht. unfold do_gas_electric_meter_reading. rewrite Hr.
  cbn [obind fst snd].
  pose proof (get_gas_and_electric_reading_heap _ _ _ _ _ Hr) as Hh. cbn [snd] in Hh.
  assert (Ht1 : heap w1 !! tags = Some t) by now rewrite Hh.
  unfold meter_points.
  destruct (dict_get readings "gas") as [g |] eqn:Eg.
  - destruct (add_point_present "gas" (gas_meter_id self) "ccf" readings timestamp
                tags ([], w1) t g Eg Ht1)
      as (l1 & wg & Hadd & Hf1 & Htr1 & Hl1 & Ho1).
    rewrite Hadd. cbn [obind fst snd app] in *.
    assert (Hne1 : tags <> l1) by (intros ->; congruence).
    assert (Htg : heap wg !! tags = Some t) by (rewrite Ho1 by exact Hne1; exact Ht1).
    destruct (dict_get readings "electric") as [e |] eqn:Ee.
    + destruct (add_point_present "electric" (electric_meter_id self) "kwh" readings
                  timestamp tags
                  ([{| measurement := "gas"; Rtl.tags := l1; time := timestamp;
                       fields := [("reading"%string, g)] |}], wg) t e Ee Htg)
        as (l2 & we & Hadd2 & Hf2 & Htr2 & Hl2 & Ho2).
      rewrite Hadd2. cbn [obind fst snd app] in *.
      assert (Hne2 : tags <> l2) by (intros ->; congruence).
      assert (Hne12 : l1 <> l2) by (intros ->; congruence).
      eexists. split; [reflexivity |].
      rewrite write_points_heap. split; [rewrite Ho2 by exact Hne2; exact Htg |].
      unfold write_points. destruct influxclient; cbn [log trace];
        [| rewrite Htr2, Htr1; now rewrite app_nil_r].
      rewrite Htr2, Htr1. unfold send, meter_point.
      cbn [map measurement Rtl.tags time fields].
      rewrite Hl2, (Ho2 l1 Hne12), Hl1. reflexivity.
    + unfold add_point at 1. rewrite Ee. cbn [obind fst snd].
      eexists. split; [reflexivity |].
      rewrite write_points_heap. split; [exact Htg |].
      unfold write_points. destruct influxclient; cbn [log trace];
        [| rewrite Htr1; now rewrite app_nil_r].
      rewrite Htr1. unfold send, meter_point.
      cbn [map measurement Rtl.tags time fields app].
      rewrite Hl1. reflexivity.
  - unfold add_point at 1. rewrite Eg. cbn [obind fst snd app].
    destruct (dict_get readings "electric") as [e |] eqn:Ee.
    + destruct (add_point_present "electric" (electric_meter_id self) "kwh" readings
                  timestamp tags ([], w1) t e Ee Ht1)
        as (l2 & we & Hadd2 & Hf2 & Htr2 & Hl2 & Ho2).
      rewrite Hadd2. cbn [obind fst snd app] in *.
      assert (Hne2 : tags <> l2) by (intros ->; congruence).
      eexists. split; [reflexivity |].
      rewrite write_points_heap. split; [rewrite Ho2 by exact Hne2; exact Ht1 |].
      unfold write_points. destruct influxclient; cbn [log trace];
        [| rewrite Htr2; now rewrite app_nil_r].
      rewrite Htr2. unfold send, meter_point.
      cbn [map measurement Rtl.tags time fields].
      rewrite Hl2. reflexivity.
    + unfold add_point. rewrite Ee. cbn [obind fst snd].
      eexists. split; [reflexivity |].
      rewrite write_points_heap. split; [exact Ht1 |].
      unfold write_points. destruct influxclient; cbn [log trace map];
        [reflexivity | now rewrite app_nil_r].
Qed.

Lemma gas_electric_points_witness :
  exists w2,
    do_gas_electric_meter_reading (meter (Some "123") (Some "456") None)
      (decoder [electric_123] [gas_456] []) 1 true "t" 0%nat w0 = Ok w2
    /\ heap w2 !! 0%nat = Some [("hostname"%string, TagStr "pi")]
    /\ trace w2 =
       trace (log [Spawn (command_line (meter (Some "123") (Some "456") None) "scm" ["123"]);
                   Kill (command_line (meter (Some "123") (Some "456") None) "scm" ["123"]);
                   Spawn (command_line (meter (Some "123") (Some "456") None) "scm+" ["456"]);
                   Kill (command_line (meter (Some "123") (Some "456") None) "scm+" ["456"])]
                w0)
       ++ [WritePoints
             (meter_points "gas" (Some "456"%string) "ccf"
                [("hostname"%string, TagStr "pi")] "t"
                [("electric"%string, 45%float); ("gas"%string, 12.34%float)]
              ++ meter_points "electric" (Some "123"%string) "kwh"
                   [("hostname"%string, TagStr "pi")] "t"
                   [("electric"%string, 45%float); ("gas"%string, 12.34%float)])].
Proof.
  apply (gas_electric_points (meter (Some "123") (Some "456") None)
           (decoder [electric_123] [gas_456] []) 1 true "t" 0%nat w0 _
           [("hostname"%string, TagStr "pi")]
           [("electric"%string, 45%float); ("gas"%string, 12.34%float)]).
  - vm_compute. reflexivity.
  - reflexivity.
Defined.

End Points.

(* ===================================================================== *)
(** * The tags of the caller after a read *)
(* ===================================================================== *)

Section CallerTags.
Import Py Rtl Reader Examples Expect.

(** [do_water_meter_reading] when the reading is there: the three keys go
    into the dict of the caller, no other dict is made or changed, and the
    point sent carries that dict. *)
Lemma do_water_in_place
    (self : rtl) (popen : spawner) (fuel : nat) (influxclient : bool)
    (timestamp : string) (tags : loc) (w w1 : world) (t : dict tagval)
    (reading : float) :
  get_water_reading self popen fuel w = Ok (Some reading, w1) ->
  heap w !! tags = Some t ->
  exists w2,
    do_water_meter_reading self popen fuel influxclient timestamp tags w = Ok w2
    /\ heap w2 !! tags = Some (meter_tags (water_meter_id self) "hcf" t)
    /\ (forall l, l <> tags -> heap w2 !! l = heap w !! l)
    /\ trace w2 =
       trace w1 ++
       (if influxclient
        then [WritePoints [meter_point "water" (water_meter_id self) "hcf" t
                             timestamp reading]]
        else []).
Proof.
  intros Hr Ht. unfold do_water_meter_reading. rewrite Hr. cbn [obind fst snd].
  pose proof (get_water_reading_heap _ _ _ _ _ Hr) as Hh. cbn [snd] in Hh.
  rewrite (set_meter_tags_eq tags (water_meter_id self) "hcf" w1 t)
    by now rewrite Hh.
  cbn [obind]. eexists. split; [reflexivity |].
  rewrite write_points_heap. cbn [store heap]. rewrite lookup_insert_eq.
  split; [reflexivity |].
  split.
  { intros l Hne. rewrite !lookup_insert_ne by congruence. now rewrite Hh. }
  unfold write_points. destruct influxclient; cbn [log trace store];
    [| now rewrite app_nil_r].
  unfold send. cbn [map measurement Rtl.tags time fields heap store].
  rewrite lookup_insert_eq. reflexivity.
Qed.

(** [do_gas_electric_meter_reading] when the extraction has returned: every
    dict that was there is as it was, each reading has a new dict of its own
    that holds the tags of the caller completed for its meter, and these
    completed copies are what the points sent carry. *)
Lemma do_gas_electric_on_copies
    (self : rtl) (popen : spawner) (fuel : nat) (influxclient : bool)
    (timestamp : string) (tags : loc) (w w1 : world) (t : dict tagval)
    (readings : dict float) :
  get_gas_and_electric_reading self popen fuel w = Ok (readings, w1) ->
  heap w !! tags = Some t ->
  exists w2,
    do_gas_electric_meter_reading self popen fuel influxclient timestamp tags w = Ok w2
    /\ (forall l d, heap w !! l = Some d -> heap w2 !! l = Some d)
    /\ (forall g, dict_get readings "gas" = Some g ->
        exists l, l <> tags /\ heap w !! l = None
          /\ heap w2 !! l = Some (meter_tags (gas_meter_id self) "ccf" t))
    /\ (forall e, dict_get readings "electric" = Some e ->
        exists l, l <> tags /\ heap w !! l = None
          /\ heap w2 !! l = Some (meter_tags (electric_meter_id self) "kwh" t))
    /\ trace w2 =
       trace w1 ++
       (if influxclient
        then [WritePoints
                (meter_points "gas" (gas_meter_id self) "ccf" t timestamp readings
                 ++ meter_points "electric" (electric_meter_id self) "kwh" t
                      timestamp readings)]
        else []).
Proof.
  intros Hr Ht. unfold do_gas_electric_meter_reading. rewrite Hr.
  cbn [obind fst snd].
  pose proof (get_gas_and_electric_reading_heap _ _ _ _ _ Hr) as Hh. cbn [snd] in Hh.
  assert (Ht1 : heap w1 !! tags = Some t) by now rewrite Hh.
  unfold meter_points.
  destruct (dict_get readings "gas") as [g |] eqn:Eg.
  - destruct (add_point_present "gas" (gas_meter_id self) "ccf" readings timestamp
                tags ([], w1) t g Eg Ht1)
      as (l1 & wg & Hadd & Hf1 & Htr1 & Hl1 & Ho1).
    rewrite Hadd. cbn [obind fst snd app] in *.
    assert (Hne1 : tags <> l1) by (intros ->; congruence).
    assert (Htg : heap wg !! tags = Some t) by (rewrite Ho1 by exact Hne1; exact Ht1).
    destruct (dict_get readings "electric") as [e |] eqn:Ee.
    + destruct (add_point_present "electric" (electric_meter_id self) "kwh" readings
                  timestamp tags
                  ([{| measurement := "gas"; Rtl.tags := l1; time := timestamp;
                       fields := [("reading"%string, g)] |}], wg) t e Ee Htg)
        as (l2 & we & Hadd2 & Hf2 & Htr2 & Hl2 & Ho2).
      rewrite Hadd2. cbn [obind fst snd app] in *.
      assert (Hne2 : tags <> l2) by (intros ->; congruence).
      assert (Hne12 : l1 <> l2) by (intros ->; congruence).
      eexists. split; [reflexivity |].
      rewrite write_points_heap.
      split.
      { intros l d Hl.
        assert (l <> l1) by (intros ->; rewrite Hh in Hf1; congruence).
        assert (l <> l2) by (intros ->; rewrite Ho1, Hh in Hf2 by congruence; congruence).
        rewrite Ho2, Ho1, Hh by assumption. exact Hl. }
      split.
      { intros _ _. exists l1. split; [congruence |]. split; [now rewrite <- Hh |].
        rewrite Ho2 by exact Hne12. exact Hl1. }
      split.
      { intros _ _. exists l2. split; [congruence |].
        split; [rewrite <- Hh, <- (Ho1 l2) by congruence; exact Hf2 | exact Hl2]. }
      unfold write_points. destruct influxclient; cbn [log trace];
        [| rewrite Htr2, Htr1; now rewrite app_nil_r].
      rewrite Htr2, Htr1. unfold send, meter_point.
      cbn [map measurement Rtl.tags time fields].
      rewrite Hl2, (Ho2 l1 Hne12), Hl1. reflexivity.
    + unfold add_point at 1. rewrite Ee. cbn [obind fst snd].
      eexists. split; [reflexivity |].
      rewrite write_points_heap.
      split.
      { intros l d Hl.
        assert (l <> l1) by (intros ->; rewrite Hh in Hf1; congruence).
        rewrite Ho1, Hh by assumption. exact Hl. }
      split.
      { intros _ _. exists l1. split; [congruence |]. split; [now rewrite <- Hh |].
        exact Hl1. }
      split; [discriminate |].
      unfold write_points. destruct influxclient; cbn [log trace];
        [| rewrite Htr1; now rewrite app_nil_r].
      rewrite Htr1. unfold send, meter_point.
      cbn [map measurement Rtl.tags time fields app].
      rewrite Hl1. reflexivity.
  - unfold add_point at 1. rewrite Eg. cbn [obind fst snd app].
    destruct (dict_get readings "electric") as [e |] eqn:Ee.
    + destruct (add_point_present "electric" (electric_meter_id self) "kwh" readings
                  timestamp tags ([], w1) t e Ee Ht1)
        as (l2 & we & Hadd2 & Hf2 & Htr2 & Hl2 & Ho2).
      rewrite Hadd2. cbn [obind fst snd app] in *.
      assert (Hne2 : tags <> l2) by (intros ->; congruence).
      eexists. split; [reflexivity |].
      rewrite write_points_heap.
      split.
      { intros l d Hl.
        assert (l <> l2) by (intros ->; rewrite Hh in Hf2; congruence).
        rewrite Ho2, Hh by assumption. exact Hl. }
      split; [discriminate |].
      split.
      { intros _ _. exists l2. split; [congruence |]. split; [now rewrite <- Hh |].
        exact Hl2. }
      unfold write_points. destruct influxclient; cbn [log trace];
        [| rewrite Htr2; now rewrite app_nil_r].
      rewrite Htr2. unfold send, meter_point.
      cbn [map measurement Rtl.tags time fields].
      rewrite Hl2. reflexivity.
    + unfold add_point. rewrite Ee. cbn [obind fst snd].
      eexists. split; [reflexivity |].
      rewrite write_points_heap.
      split; [intros l d Hl; now rewrite Hh |].
      split; [discriminate |]. split; [discriminate |].
      unfold write_points. destruct influxclient; cbn [log trace map];
        [reflexivity | now rewrite app_nil_r].
Qed.

(** C10. When the water reading succeeds, [do_water_meter_reading] puts
    [meterid], [units] and [version] into the very dict the caller passed: no
    copy is taken (no other dict appears or changes), the dict of the caller
    is changed after the call, and the point sent carries it. By contrast
    [do_gas_electric_meter_reading], once the extraction has returned, takes
    one copy of the tags for each reading it finds, a new dict, and completes
    that copy with the [meterid] of its meter, its units and the version; the
    points sent carry these completed copies, and the dict of the caller, as
    every dict that was there, is as it was. *)
Theorem water_mutates_tags_gas_electric_copies
    (self : rtl) (popen : spawner) (fuel : nat) (influxclient : bool)
    (timestamp : string) (tags : loc) (w : world) (t : dict tagval) :
  heap w !! tags = Some t ->
  (forall reading w1,
     get_water_reading self popen fuel w = Ok (Some reading, w1) ->
     exists w2,
       do_water_meter_reading self popen fuel influxclient timestamp tags w = Ok w2
       /\ heap w2 !! tags =
          Some (dict_set "version" (TagInt 1)
                  (dict_set "units" (TagStr "hcf")
                     (dict_set "meterid" (tag_of_id (water_meter_id self)) t)))
       /\ (forall l, l <> tags -> heap w2 !! l = heap w !! l)
       /\ trace w2 =
          trace w1 ++
          (if influxclient
           then [WritePoints [meter_point "water" (water_meter_id self) "hcf" t
                                timestamp reading]]
           else []))
  /\ (forall readings w1,
     get_gas_and_electric_reading self popen fuel w = Ok (readings, w1) ->
     exists w2,
       do_gas_electric_meter_reading self popen fuel influxclient timestamp tags w = Ok w2
       /\ heap w2 !! tags = Some t
       /\ (forall l d, heap w !! l = Some d -> heap w2 !! l = Some d)
       /\ (forall g, dict_get readings "gas" = Some g ->
           exists l, l <> tags /\ heap w !! l = None
             /\ heap w2 !! l =
                Some (dict_set "version" (TagInt 1)
                        (dict_set "units" (TagStr "ccf")
                           (dict_set "meterid" (tag_of_id (gas_meter_id self)) t))))
       /\ (forall e, dict_get readings "electric" = Some e ->
           exists l, l <> tags /\ heap w !! l = None
             /\ heap w2 !! l =
                Some (dict_set "version" (TagInt 1)
                        (dict_set "units" (TagStr "kwh")
                           (dict_set "meterid" (tag_of_id (electric_meter_id self)) t))))
       /\ trace w2 =
          trace w1 ++
          (if influxclient
           then [WritePoints
                   (meter_points "gas" (gas_meter_id self) "ccf" t timestamp readings
                    ++ meter_points "electric" (electric_meter_id self) "kwh" t
                         timestamp readings)]
           else []))
  /\ (forall w2,
     do_gas_electric_meter_reading self popen fuel influxclient timestamp tags w = Ok w2 ->
     heap w2 !! tags = Some t).
Proof.
  intros Ht. split; [| split].
  - intros reading w1 Hr.
    exact (do_water_in_place self popen fuel influxclient timestamp tags w w1 t
             reading Hr Ht).
  - intros readings w1 Hr.
    destruct (do_gas_electric_on_copies self popen fuel influxclient timestamp tags
                w w1 t readings Hr Ht) as (w2 & Hd & Hold & Hg & He & Htr).
    exists w2. split; [exact Hd |]. split; [now apply Hold |].
    split; [exact Hold |]. split; [exact Hg |]. split; [exact He | exact Htr].
  - intros w2. unfold do_gas_electric_meter_reading. intros H.
    apply obind_Ok in H as (r & Hr & H).
    apply obind_Ok in H as (s1 & H1 & H).
    apply obind_Ok in H as (s2 & H2 & H).
    injection H as <-. rewrite write_points_heap.
    apply get_gas_and_electric_reading_heap in Hr.
    eapply add_point_keeps_caller; [| exact H2].
    eapply add_point_keeps_caller; [| exact H1].
    cbn [snd]. now rewrite Hr.
Qed.

(** Both reads on the same configuration: the water read changes the dict
    at location 0, the gas and electric read leaves it and sends the two
    completed copies. *)
Lemma water_mutates_tags_gas_electric_copies_witness :
  (exists w2,
     do_water_meter_reading (meter (Some "123") (Some "456") (Some "789"))
       (decoder [electric_123] [gas_456] [water_789]) 1 true "t" 0%nat w0 = Ok w2
     /\ heap w2 !! 0%nat =
        Some [("hostname"%string, TagStr "pi"); ("meterid"%string, TagStr "789");
              ("units"%string, TagStr "hcf"); ("version"%string, TagInt 1)]
     /\ (forall l, l <> 0%nat -> heap w2 !! l = heap w0 !! l))
  /\ (exists w2,
     do_gas_electric_meter_reading (meter (Some "123") (Some "456") (Some "789"))
       (decoder [electric_123] [gas_456] [water_789]) 1 true "t" 0%nat w0 = Ok w2
     /\ heap w2 !! 0%nat = Some [("hostname"%string, TagStr "pi")]
     /\ (exists l, l <> 0%nat /\ heap w0 !! l = None
          /\ heap w2 !! l =
             Some [("hostname"%string, TagStr "pi"); ("meterid"%string, TagStr "456");
                   ("units"%string, TagStr "ccf"); ("version"%string, TagInt 1)])
     /\ (exists l, l <> 0%nat /\ heap w0 !! l = None
          /\ heap w2 !! l =
             Some [("hostname"%string, TagStr "pi"); ("meterid"%string, TagStr "123");
                   ("units"%string, TagStr "kwh"); ("version"%string, TagInt 1)])
     /\ exists before,
        trace w2 =
        before ++
        [WritePoints
           [ {| sent_measurement := "gas";
                sent_tags :=
                  Some [("hostname"%string, TagStr "pi"); ("meterid"%string, TagStr "456");
                        ("units"%string, TagStr "ccf"); ("version"%string, TagInt 1)];
                sent_time := "t";
                sent_fields := [("reading"%string, 12.34%float)] |};
             {| sent_measurement := "electric";
                sent_tags :=
                  Some [("hostname"%string, TagStr "pi"); ("meterid"%string, TagStr "123");
                        ("units"%string, TagStr "kwh"); ("version"%string, TagInt 1)];
                sent_time := "t";
                sent_fields := [("reading"%string, 45%float)] |} ]]).
Proof.
  destruct (water_mutates_tags_gas_electric_copies
              (meter (Some "123") (Some "456") (Some "789"))
              (decoder [electric_123] [gas_456] [water_789]) 1 true "t" 0%nat w0
              [("hostname"%string, TagStr "pi")] eq_refl) as (Hw & Hge & _).
  split.
  - destruct (Hw (99 / 100)%float
                (log [Spawn (command_line (meter (Some "123") (Some "456") (Some "789"))
                               "r900bcd" ["789"%string]);
                      Kill (command_line (meter (Some "123") (Some "456") (Some "789"))
                              "r900bcd" ["789"%string])] w0))
      as (w2 & H1 & H2 & H3 & _); [vm_compute; reflexivity |].
    exists w2. split; [exact H1 |]. split; [exact H2 | exact H3].
  - destruct (Hge [("electric"%string, 45%float); ("gas"%string, 12.34%float)]
                (log [Spawn (command_line (meter (Some "123") (Some "456") (Some "789"))
                               "scm+" ["456"%string]);
                      Kill (command_line (meter (Some "123") (Some "456") (Some "789"))
                              "scm+" ["456"%string])]
                   (log [Spawn (command_line (meter (Some "123") (Some "456") (Some "789"))
                                  "scm" ["123"%string]);
                         Kill (command_line (meter (Some "123") (Some "456") (Some "789"))
                                 "scm" ["123"%string])] w0)))
      as (w2 & H1 & H2 & _ & Hg & He & Htr); [vm_compute; reflexivity |].
    exists w2. split; [exact H1 |]. split; [exact H2 |].
    split; [exact (Hg _ eq_refl) |]. split; [exact (He _ eq_refl) |].
    eexists. exact Htr.
Defined.

End CallerTags.

(* ===================================================================== *)
(** * The tags of the command line *)
(* ===================================================================== *)

Section CommandLineTags.
Import Py Main.

Lemma split_free (c : ascii) (s : string) :
  free_of c s = true -> split c s = [s].
Proof.
  induction s as [| a r IH]; cbn [free_of split]; [reflexivity |].
  intros H. apply andb_true_iff in H as [Ha Hr].
  apply negb_true_iff in Ha. rewrite Ha, (IH Hr). reflexivity.
Qed.

Lemma append_nil (b : string) : String.append EmptyString b = b.
Proof. reflexivity. Qed.

Lemma append_cons (x : ascii) (a b : string) :
  String.append (String x a) b = String x (String.append a b).
Proof. reflexivity. Qed.

Lemma split_app (c : ascii) (a r : string) :
  free_of c a = true ->
  split c (String.append a (String c r)) = a :: split c r.
Proof.
  induction a as [| x a IH]; cbn [free_of].
  - intros _. rewrite append_nil. cbn [split]. now rewrite Ascii.eqb_refl.
  - intros H. apply andb_true_iff in H as [Hx Ha].
    apply negb_true_iff in Hx. rewrite append_cons. cbn [split].
    rewrite Hx, (IH Ha). reflexivity.
Qed.

Lemma free_of_app (c : ascii) (a b : string) :
  free_of c (String.append a b) = free_of c a && free_of c b.
Proof.
  induction a as [| x a IH]; [reflexivity |].
  rewrite append_cons. cbn [free_of]. rewrite IH. now rewrite andb_assoc.
Qed.

Lemma render_tag_free (kv : string * string) :
  plain (fst kv) && plain (snd kv) = true ->
  free_of "," (render_tag kv) = true.
Proof.
  unfold plain, render_tag. intros H.
  apply andb_true_iff in H as [Hk Hv].
  apply andb_true_iff in Hk as [Hk _]. apply andb_true_iff in Hv as [Hv _].
  rewrite !free_of_app, Hk, Hv. reflexivity.
Qed.

Lemma split_render_tags (kvs : list (string * string)) :
  kvs <> [] ->
  forallb (fun kv => plain (fst kv) && plain (snd kv)) kvs = true ->
  split "," (render_tags kvs) = map render_tag kvs.
Proof.
  unfold render_tags.
  induction kvs as [| kv kvs IH]; [congruence |]. intros _ H.
  cbn [forallb] in H. apply andb_true_iff in H as [Hkv Hrest].
  destruct kvs as [| kv' kvs].
  - cbn [map String.concat]. now apply split_free, render_tag_free.
  - change (String.concat "," (map render_tag (kv :: kv' :: kvs)))
      with (render_tag kv ++ String "," (String.concat "," (map render_tag (kv' :: kvs))))%string.
    rewrite split_app by now apply render_tag_free.
    rewrite IH by (try exact Hrest; discriminate). reflexivity.
Qed.

(** The body of the loop on an entry [name=value...]: what follows a second
    [=] does not count. *)
Lemma add_tag_entry (tags : dict string) (k v rest : string) :
  free_of "=" k = true -> free_of "=" v = true ->
  add_tag tags (k ++ String "=" v) = Ok (dict_set k v tags)
  /\ add_tag tags (k ++ String "=" (v ++ String "=" rest)) = Ok (dict_set k v tags).
Proof.
  intros Hk Hv. unfold add_tag. split.
  - rewrite split_app by exact Hk. now rewrite split_free by exact Hv.
  - rewrite split_app by exact Hk. now rewrite split_app by exact Hv.
Qed.

Lemma add_tags_rendered (kvs : list (string * string)) :
  forall tags : dict string,
    forallb (fun kv => plain (fst kv) && plain (snd kv)) kvs = true ->
    add_tags tags (map render_tag kvs) =
    Ok (fold_left (fun d kv => dict_set (fst kv) (snd kv) d) kvs tags).
Proof.
  induction kvs as [| [k v] kvs IH]; intros tags H; [reflexivity |].
  cbn [forallb fst snd] in H. apply andb_true_iff in H as [Hkv Hrest].
  apply andb_true_iff in Hkv as [Hk Hv]. unfold plain in Hk, Hv.
  apply andb_true_iff in Hk as [_ Hk]. apply andb_true_iff in Hv as [_ Hv].
  cbn [map add_tags fold_left fst snd]. unfold render_tag. cbn [fst snd].
  change (k ++ "=" ++ v)%string with (k ++ String "=" v)%string.
  rewrite (proj1 (add_tag_entry tags k v EmptyString Hk Hv)). cbn [obind].
  now apply IH.
Qed.

Lemma render_tags_not_empty (kvs : list (string * string)) :
  kvs <> [] -> String.eqb (render_tags kvs) EmptyString = false.
Proof.
  destruct kvs as [| [k v] kvs]; [congruence |]. intros _.
  unfold render_tags. cbn [map]. unfold render_tag at 1. cbn [fst snd].
  destruct kvs as [| kv' kvs]; cbn [String.concat map];
    destruct k; reflexivity.
Qed.

(** X14. The tags of the command line come back as they were written: for
    a non-empty list of names and values free of [,] and [=], the option
    text [name=value,...] gives the tags [hostname] followed by the pairs,
    set in their order (a later pair of the same name, or a pair named
    [hostname], replaces the earlier value). *)
Theorem parse_tags_of_rendered (hostname : string) (kvs : list (string * string)) :
  kvs <> [] ->
  forallb (fun kv => plain (fst kv) && plain (snd kv)) kvs = true ->
  parse_tags hostname (Some (render_tags kvs)) =
  Ok (fold_left (fun d kv => dict_set (fst kv) (snd kv) d) kvs
        [("hostname"%string, hostname)]).
Proof.
  intros Hne H. unfold parse_tags.
  rewrite (render_tags_not_empty kvs Hne), (split_render_tags kvs Hne H).
  now apply add_tags_rendered.
Qed.

Lemma parse_tags_of_rendered_witness :
  parse_tags "pi" (Some (render_tags [("room", "attic"); ("hostname", "roof");
                                      ("room", "cellar")]%string)) =
  Ok (fold_left (fun d kv => dict_set (fst kv) (snd kv) d)
        [("room", "attic"); ("hostname", "roof"); ("room", "cellar")]%string
        [("hostname"%string, "pi"%string)]).
Proof.
  apply (parse_tags_of_rendered "pi"
           [("room", "attic"); ("hostname", "roof"); ("room", "cellar")]%string).
  - discriminate.
  - reflexivity.
Defined.

Lemma add_tag_raises_IndexError_only (tags : dict string) (s : string) (e : exn) :
  add_tag tags s = Raise e -> e = IndexError.
Proof.
  unfold add_tag. destruct (split "=" s) as [| name [| value rest]]; intros H;
    try discriminate H; now injection H as <-.
Qed.

Lemma add_tags_entry_without_equals (p : string) (splits : list string) :
  forall tags : dict string,
    In p splits -> free_of "=" p = true ->
    add_tags tags splits = Raise IndexError.
Proof.
  induction splits as [| s rest IH]; intros tags Hin Hp; [destruct Hin |].
  cbn [add_tags].
  destruct (add_tag tags s) as [tags' | e | |] eqn:E; cbn [obind].
  - destruct Hin as [-> | Hin].
    + unfold add_tag in E. rewrite (split_free "=" p Hp) in E. discriminate E.
    + now apply IH.
  - now rewrite (add_tag_raises_IndexError_only tags s e E).
  - unfold add_tag in E. destruct (split "=" s) as [| ? [| ? ?]]; discriminate E.
  - unfold add_tag in E. destruct (split "=" s) as [| ? [| ? ?]]; discriminate E.
Qed.

(** X15. One entry without [=] among the comma-separated entries of a
    non-empty [--tags] option (an empty entry left by a trailing comma
    included) ends the program at start-up by [IndexError], wherever the
    entry stands. *)
Theorem parse_tags_entry_without_equals (hostname s p : string) :
  s <> EmptyString ->
  In p (split "," s) ->
  free_of "=" p = true ->
  parse_tags hostname (Some s) = Raise IndexError.
Proof.
  intros Hs Hin Hp. unfold parse_tags.
  destruct (String.eqb_spec s EmptyString) as [-> | _]; [contradiction |].
  now apply (add_tags_entry_without_equals p).
Qed.

Lemma parse_tags_entry_without_equals_witness :
  parse_tags "pi" (Some "room=attic,"%string) = Raise IndexError.
Proof.
  apply (parse_tags_entry_without_equals "pi" "room=attic," EmptyString).
  - discriminate.
  - right. now left.
  - reflexivity.
Defined.

(** X16. In an entry [name=value=more] the value is what stands between
    the first and the second [=]: the rest of the entry is dropped without
    an error. *)
Theorem add_tag_drops_after_second_equals
    (tags : dict string) (k v rest : string) :
  free_of "=" k = true -> free_of "=" v = true ->
  add_tag tags (k ++ String "=" (v ++ String "=" rest)) = Ok (dict_set k v tags).
Proof.
  intros Hk Hv. exact (proj2 (add_tag_entry tags k v rest Hk Hv)).
Qed.

Lemma add_tag_drops_after_second_equals_witness :
  add_tag [("hostname", "pi")]%string
    ("url" ++ String "=" ("http://host/?a" ++ String "=" "1"))%string =
  Ok (dict_set "url" "http://host/?a" [("hostname", "pi")])%string.
Proof.
  apply (add_tag_drops_after_second_equals [("hostname", "pi")]%string
           "url" "http://host/?a" "1"); reflexivity.
Defined.

End CommandLineTags.

(* ===================================================================== *)
(** * The weather reader at the end of the stream *)
(* ===================================================================== *)

Section WeatherEnd.
Import Py Rtl Reader Examples.

Lemma weather_loop_no_line (cmd : list string) (fuel : nat) :
  forall (lines : list string) (st : weather_state),
    negb (foundH st) || negb (foundT st) = true ->
    forallb readable lines = true ->
    decoded lines = [] ->
    weather_loop fuel st (child cmd lines) = OutOfFuel.
Proof.
  induction fuel as [| fuel IH]; intros lines st Hst Hr Hd;
    rewrite weather_loop_eq, Hst; [reflexivity |].
  destruct lines as [| l rest].
  - cbn. now apply IH.
  - cbn [forallb] in Hr. apply andb_true_iff in Hr as [Hl Hrest].
    cbn [readline child mode stdout cmdline eq_str andb]. unfold truthy. cbn [content].
    fold (child cmd rest). cbn [decoded] in Hd. unfold readable in Hl.
    destruct (String.eqb l EmptyString); cbn [negb orb] in *; [now apply IH |].
    destruct (Json.loads l) as [d | e | |]; try discriminate.
    destruct e; try discriminate. now apply IH.
Qed.

(** X17. When the weather decoder ends without one decodable line (it saw
    no sensor before its time limit), [get_values] does not return: as in
    [get_rtl_values], the empty [bytes] read at the end of the stream is not
    recognised and the loop goes on reading. *)
Theorem get_values_hangs_without_output
    (popen : spawner) (fuel : nat) (w : world) :
  forallb readable (popen weather_command_line) = true ->
  decoded (popen weather_command_line) = [] ->
  get_values popen fuel w = OutOfFuel.
Proof.
  intros Hr Hd. unfold get_values, Popen.
  change {| cmdline := ?c; mode := Binary; stdout := ?l |} with (child c l).
  now rewrite weather_loop_no_line.
Qed.

Lemma get_values_hangs_without_output_witness :
  get_values (fun _ => [not_json]) 1000 w0 = OutOfFuel.
Proof.
  apply (get_values_hangs_without_output (fun _ => [not_json]) 1000 w0).
  - vm_compute. reflexivity.
  - vm_compute. reflexivity.
Defined.

End WeatherEnd.
